(** * crypto_client: the session protocol of [client.py]

    A shallow embedding of [Client] (handshake, login, verification and
    the validation of every server response) together with the
    properties of its session protocol.

    Python values are an inductive type, exceptions are an error type,
    and a method that mutates [self] or talks to the network is a
    function on a world made of the client object, the state of the
    remote end and the log of the requests sent.  A raised exception
    keeps whatever was assigned to [self] before it, as in Python. *)

From Stdlib Require Import String Ascii List ZArith NArith Bool Lia.
From Stdlib Require Import DecimalString Strings.Byte.
Import ListNotations.

Local Open Scope string_scope.
Local Open Scope Z_scope.

#[local] Set Warnings "-register-all".

(** ** Python values *)

(** The values that travel between the client, [requests] and [crypto]:
    what [json] produces and consumes, plus [bytes].  A [dict] keeps its
    insertion order; its keys are distinct and a lookup takes the first
    binding.  JSON numbers are the integers. *)
Inductive pyval : Type :=
| VNone
| VBool (b : bool)
| VInt (n : Z)
| VStr (s : string)
| VBytes (b : list byte)
| VList (l : list pyval)
| VDict (d : list (string * pyval)).

Fixpoint dict_get {A : Type} (k : string) (d : list (string * A)) : option A :=
  match d with
  | [] => None
  | (k', v) :: d' => if String.eqb k k' then Some v else dict_get k d'
  end.

Fixpoint bytes_eqb (s t : list byte) : bool :=
  match s, t with
  | [], [] => true
  | x :: s', y :: t' => Byte.eqb x y && bytes_eqb s' t'
  | _, _ => false
  end.

(** [bool(v)]. *)
Definition truthy (v : pyval) : bool :=
  match v with
  | VNone => false
  | VBool b => b
  | VInt n => negb (n =? 0)
  | VStr s => negb (String.eqb s "")
  | VBytes b => match b with [] => false | _ => true end
  | VList l => match l with [] => false | _ => true end
  | VDict d => match d with [] => false | _ => true end
  end.

(** [a == b]: [bool] is a subtype of [int], [str] and [bytes] never
    compare equal, sequences compare pointwise and dicts by key. *)
Fixpoint py_eq (a b : pyval) {struct a} : bool :=
  match a, b with
  | VNone, VNone => true
  | VBool x, VBool y => Bool.eqb x y
  | VBool x, VInt n => n =? Z.b2z x
  | VInt n, VBool x => n =? Z.b2z x
  | VInt n, VInt m => n =? m
  | VStr s, VStr t => String.eqb s t
  | VBytes s, VBytes t => bytes_eqb s t
  | VList l, VList m =>
      (fix go (l m : list pyval) : bool :=
         match l, m with
         | [], [] => true
         | x :: l', y :: m' => py_eq x y && go l' m'
         | _, _ => false
         end) l m
  | VDict d, VDict e =>
      Nat.eqb (length d) (length e) &&
      (fix go (d : list (string * pyval)) : bool :=
         match d with
         | [] => true
         | (k, v) :: d' =>
             match dict_get k e with
             | Some w => py_eq v w
             | None => false
             end && go d'
         end) d
  | _, _ => false
  end.

(** [a != b]. *)
Definition py_ne (a b : pyval) : bool := negb (py_eq a b).

(** ** Exceptions *)

(** [ServerError] is the one exception class [client.py] declares; the
    others are the built-in ones its statements can raise.  [Raised]
    stands for an exception of a collaborator ([requests], [crypto]). *)
Inductive exn : Type :=
| ServerError (arg : pyval)
| KeyError (key : string)
| TypeError
| AttributeError
| ValueError
| binascii_Error
| Raised (name : string).

(** The class of an exception, as an [except] clause sees it. *)
Inductive exn_class : Type :=
| CServerError | CKeyError | CTypeError | CAttributeError
| CValueError | CBinasciiError | CRaised (name : string).

Definition class_of (e : exn) : exn_class :=
  match e with
  | ServerError _ => CServerError
  | KeyError _ => CKeyError
  | TypeError => CTypeError
  | AttributeError => CAttributeError
  | ValueError => CValueError
  | binascii_Error => CBinasciiError
  | Raised n => CRaised n
  end.

Inductive result (A : Type) : Type :=
| Ok (a : A)
| Raise (e : exn).
Arguments Ok {A} a.
Arguments Raise {A} e.

Definition rbind {A B : Type} (r : result A) (k : A -> result B) : result B :=
  match r with
  | Ok a => k a
  | Raise e => Raise e
  end.

(** [v[k]] for a string key. *)
Definition subscript (v : pyval) (k : string) : result pyval :=
  match v with
  | VDict d =>
      match dict_get k d with
      | Some x => Ok x
      | None => Raise (KeyError k)
      end
  | _ => Raise TypeError
  end.

(** [str(n)] for an [int]. *)
Definition str_int (n : Z) : string := NilZero.string_of_int (Z.to_int n).

(** ** [base64.b64decode] *)

Module base64.

Definition table_a2b_base64 (c : ascii) : option N :=
  let n := N_of_ascii c in
  (if (65 <=? n) && (n <=? 90) then Some (n - 65)
   else if (97 <=? n) && (n <=? 122) then Some (n - 71)
   else if (48 <=? n) && (n <=? 57) then Some (n + 4)
   else if n =? 43 then Some 62
   else if n =? 47 then Some 63
   else None)%N.

Definition emit (n : N) : byte := byte_of_ascii (ascii_of_N (n mod 256)).

(** The decoding loop of [binascii.a2b_base64] without strict mode:
    characters outside the alphabet are skipped, a completed run of
    padding ends the input, and a quad left open is an error. *)
Fixpoint a2b_loop (s : list ascii) (quad_pos : nat) (leftchar : N)
         (pads : nat) (out : list byte) : result (list byte) :=
  match s with
  | [] =>
      match quad_pos with
      | O => Ok (rev out)
      | _ => Raise binascii_Error
      end
  | c :: rest =>
      if Ascii.eqb c "="%char then
        if (2 <=? quad_pos)%nat then
          if (4 <=? quad_pos + S pads)%nat then Ok (rev out)
          else a2b_loop rest quad_pos leftchar (S pads) out
        else a2b_loop rest quad_pos leftchar pads out
      else
        match table_a2b_base64 c with
        | None => a2b_loop rest quad_pos leftchar pads out
        | Some this_ch =>
            match quad_pos with
            | 0%nat => a2b_loop rest 1 this_ch 0 out
            | 1%nat =>
                a2b_loop rest 2 (N.land this_ch 15) 0
                  (emit (N.lor (N.shiftl leftchar 2) (N.shiftr this_ch 4)) :: out)
            | 2%nat =>
                a2b_loop rest 3 (N.land this_ch 3) 0
                  (emit (N.lor (N.shiftl leftchar 4) (N.shiftr this_ch 2)) :: out)
            | _ =>
                a2b_loop rest 0 0%N 0
                  (emit (N.lor (N.shiftl leftchar 6) this_ch) :: out)
            end
        end
  end.

Definition a2b_base64 (s : list ascii) : result (list byte) :=
  a2b_loop s 0 0%N 0 [].

Definition is_ascii (c : ascii) : bool := (N_of_ascii c <? 128)%N.

(** [b64decode(s)]: a [str] must be ASCII, [bytes] are taken as they
    are, anything else is a [TypeError]. *)
Definition b64decode (v : pyval) : result (list byte) :=
  match v with
  | VStr s =>
      let cs := list_ascii_of_string s in
      if forallb is_ascii cs then a2b_base64 cs else Raise ValueError
  | VBytes b => a2b_base64 (map ascii_of_byte b)
  | _ => Raise TypeError
  end.

End base64.

(** ** The collaborators: [crypto] and [requests] *)

Module crypto.

(** An [RSASucker] object: its public key and its [decrypt(data,
    fields)] method. *)
Record RSASucker : Type := {
  public : pyval;
  decrypt : pyval -> list string -> result pyval
}.

(** An [AESSucker] object: its [encrypt(data)] method. *)
Record AESSucker : Type := {
  encrypt : pyval -> result pyval
}.

End crypto.

(** [client.py] imports the module [crypto] and uses its two classes
    through their constructors; both are parameters here. *)
Class Crypto : Type := {
  RSASucker : crypto.RSASucker;
  AESSucker : pyval -> pyval -> result crypto.AESSucker
}.

(** What [requests.post] returns. *)
Record Response : Type := {
  status_code : Z;
  reason : string;
  json : result pyval
}.

(** The remote end: [requests.post(url, json=data)] answers (or raises)
    and moves on. *)
Class Transport (Net : Type) : Type := {
  requests_post : Net -> string -> pyval -> result Response * Net
}.

(** ** The client object *)

Record Client : Type := {
  base_url : string;
  rsa : crypto.RSASucker;
  session_id : pyval;
  aes : option crypto.AESSucker;
  secret : option (list byte);
  use_encryption : bool;
  use_verification : bool
}.

(** Assignments to the attributes of [self]. *)
Definition with_session_id (v : pyval) (c : Client) : Client :=
  {| base_url := base_url c; rsa := rsa c; session_id := v; aes := aes c;
     secret := secret c; use_encryption := use_encryption c;
     use_verification := use_verification c |}.

Definition with_aes (a : option crypto.AESSucker) (c : Client) : Client :=
  {| base_url := base_url c; rsa := rsa c; session_id := session_id c; aes := a;
     secret := secret c; use_encryption := use_encryption c;
     use_verification := use_verification c |}.

Definition with_secret (s : option (list byte)) (c : Client) : Client :=
  {| base_url := base_url c; rsa := rsa c; session_id := session_id c;
     aes := aes c; secret := s; use_encryption := use_encryption c;
     use_verification := use_verification c |}.

(** The two flags are assigned together, as [ClientApp.set_stack] in
    [ui.py] does before it connects. *)
Definition with_flags (enc ver : bool) (c : Client) : Client :=
  {| base_url := base_url c; rsa := rsa c; session_id := session_id c;
     aes := aes c; secret := secret c; use_encryption := enc;
     use_verification := ver |}.

(** [Client.__init__]. *)
Definition Client_init `{Crypto} (url : string) (enc ver : bool) : Client :=
  {| base_url := url; rsa := RSASucker; session_id := VNone; aes := None;
     secret := None; use_encryption := enc; use_verification := ver |}.

(** ** Validation of a response *)

(** [Client.check_response]: it reads [self] and either returns or
    raises. *)
Definition check_response (self : Client) (response : Response) : result unit :=
  if negb (status_code response =? 200) then
    Raise (ServerError (VStr ("HTTP Response error: "
                                ++ str_int (status_code response) ++ " "
                                ++ reason response)))
  else
    rbind (json response) (fun body =>
    rbind (subscript body "errorDto") (fun dto =>
    rbind (subscript dto "code") (fun code =>
    match code with
    | VNone =>
        if truthy (session_id self) then
          rbind (json response) (fun body' =>
          rbind (subscript body' "data") (fun data =>
          rbind (subscript data "sessionId") (fun sid =>
          if py_ne (session_id self) sid
          then Raise (ServerError (VStr "Invalid SessionID. "))
          else Ok tt)))
        else Ok tt
    | _ =>
        rbind (json response) (fun body' =>
        rbind (subscript body' "errorDto") (fun dto' =>
        rbind (subscript dto' "message") (fun msg =>
        Raise (ServerError msg))))
    end))).

(** ** Methods that change the world *)

(** The client object, the remote end, and the requests sent so far
    (latest first). *)
Record World (Net : Type) : Type := {
  self : Client;
  net : Net;
  sent : list (string * pyval)
}.
Arguments Build_World {Net} _ _ _.
Arguments self {Net} _.
Arguments net {Net} _.
Arguments sent {Net} _.

(** A method: it returns or raises, and leaves a world behind either
    way. *)
Definition M (Net A : Type) : Type := World Net -> result A * World Net.

Section Methods.

Context {Net : Type} `{Transport Net}.

Definition ret {A : Type} (a : A) : M Net A := fun w => (Ok a, w).

Definition bind {A B : Type} (m : M Net A) (k : A -> M Net B) : M Net B :=
  fun w =>
    match m w with
    | (Ok a, w') => k a w'
    | (Raise e, w') => (Raise e, w')
    end.

Definition lift {A : Type} (r : result A) : M Net A := fun w => (r, w).

Definition get_self : M Net Client := fun w => (Ok (self w), w).

Definition update_self (f : Client -> Client) : M Net unit :=
  fun w => (Ok tt, {| self := f (self w); net := net w; sent := sent w |}).

(** [requests.post(url, json=data)]. *)
Definition post (url : string) (data : pyval) : M Net Response :=
  fun w =>
    let (r, n) := requests_post (net w) url data in
    (r, {| self := self w; net := n; sent := (url, data) :: sent w |}).

End Methods.

Declare Scope py_scope.
Delimit Scope py_scope with py.
Notation "x <- m ;; k" := (bind m (fun x => k))
  (at level 61, m at next level, right associativity) : py_scope.
Notation "m ;; k" := (bind m (fun _ => k))
  (at level 61, right associativity) : py_scope.

(** [Client.encrypt]: it reads [self] and either returns or raises.
    With no cipher installed, [self.aes.encrypt] is an attribute lookup
    on [None]. *)
Definition encrypt (self : Client) (data : pyval) : result pyval :=
  if negb (use_encryption self) then Ok data
  else
    match aes self with
    | Some a => crypto.encrypt a data
    | None => Raise AttributeError
    end.

(** The body of the handshake request built by [Client.connect]. *)
Definition rsakey_request (self : Client) : pyval :=
  VDict [("rsaKey", crypto.public (rsa self));
         ("encryption", VBool (use_encryption self));
         ("postCode", VBool (use_verification self))].

(** The body of the request built by [Client.login]. *)
Definition login_request (sid l p : pyval) : pyval :=
  VDict [("sessionId", sid); ("login", l); ("password", p)].

(** The body of the request built by [Client.verify]. *)
Definition verify_request (e sid : pyval) : pyval :=
  VDict [("code", e); ("sessionId", sid)].

Section Client.

Context {Net : Type} `{Transport Net} `{Crypto}.
Local Open Scope py_scope.

(** [Client.make_request]. *)
Definition make_request (endpoint : string) (data : pyval) : M Net pyval :=
  c <- get_self ;;
  response <- post (base_url c ++ endpoint) data ;;
  c <- get_self ;;
  lift (check_response c response) ;;
  body <- lift (json response) ;;
  lift (subscript body "data").

(** [Client.build_token]. *)
Definition build_token (data : pyval) : M Net unit :=
  s <- lift (subscript data "secret") ;;
  t <- lift (base64.b64decode s) ;;
  update_self (with_secret (Some t)).

(** [Client.connect]. *)
Definition connect : M Net unit :=
  c <- get_self ;;
  data <- make_request "rsakey" (rsakey_request c) ;;
  sid <- lift (subscript data "sessionId") ;;
  update_self (with_session_id sid) ;;
  c <- get_self ;;
  data <- lift (crypto.decrypt (rsa c) data ["aesKey"; "ivector"]) ;;
  key <- lift (subscript data "aesKey") ;;
  iv <- lift (subscript data "ivector") ;;
  a <- lift (AESSucker key iv) ;;
  update_self (with_aes (Some a)).

(** [Client.login]. *)
Definition login (login password : pyval) : M Net unit :=
  c <- get_self ;;
  let sid := session_id c in
  l <- lift (encrypt c login) ;;
  c <- get_self ;;
  p <- lift (encrypt c password) ;;
  data <- make_request "login" (login_request sid l p) ;;
  c <- get_self ;;
  if negb (use_verification c) then build_token data else ret tt.

(** [Client.verify]. *)
Definition verify (code : pyval) : M Net unit :=
  c <- get_self ;;
  e <- lift (encrypt c code) ;;
  c <- get_self ;;
  data <- make_request "verify" (verify_request e (session_id c)) ;;
  build_token data.

End Client.

Section Script.

Context {Net : Type} `{Transport Net} `{Crypto}.
Local Open Scope py_scope.

(** The script at the end of [client.py]: a client for [BASE_URL] (or
    the local default) with the default flags, a handshake, and a
    login whose arguments are the command-line arguments after the
    script's name, unpacked. *)
Definition main (BASE_URL : option string) (argv : list string) (n : Net)
  : result unit * World Net :=
  let client :=
    Client_init (match BASE_URL with
                 | Some url => url
                 | None => "http://127.0.0.1:8080/"
                 end) true false in
  (connect ;;
   match tl argv with
   | [l; p] => login (VStr l) (VStr p)
   | _ => lift (Raise TypeError)
   end) {| self := client; net := n; sent := [] |}.

End Script.

(** The same world around another client object. *)
Definition set_self {Net : Type} (c : Client) (w : World Net) : World Net :=
  {| self := c; net := net w; sent := sent w |}.

(** The client keeps no state attribute: it has a token or it has not. *)
Definition authenticated (c : Client) : bool :=
  match secret c with
  | Some _ => true
  | None => false
  end.

(** ** The window: [ClientApp] in [ui.py] *)

(** Built-ins the window relies on: [str(e)] for an exception,
    whether the class of an exception raised by a collaborator derives
    from [ValueError], and [bytes.decode()]. *)
Class Builtins : Type := {
  str_exn : exn -> string;
  raised_is_ValueError : string -> bool;
  bytes_decode : list byte -> result string
}.

(** [ui.py] calls [client.get_files()] and [client.delete_file(name)],
    methods the class [Client] of [client.py] does not define: they are
    parameters. *)
Class DocumentClient (Net : Type) : Type := {
  get_files : M Net pyval;
  Client_delete_file : string -> M Net pyval
}.

(** [SETTINGS['formats']] of the module [settings] imported by
    [ui.py]: the formats of each kind of file. *)
Class Settings : Type := {
  SETTINGS_formats : list (string * list string)
}.

(** [s.split('.')]. *)
Fixpoint split_dot (s : string) : list string :=
  match s with
  | EmptyString => [""]
  | String c s' =>
      if Ascii.eqb c "."%char then "" :: split_dot s'
      else
        match split_dot s' with
        | h :: t => String c h :: t
        | [] => [String c ""]
        end
  end.

(** [x in l] for a sequence of strings. *)
Definition str_in (x : string) (l : list string) : bool :=
  existsb (String.eqb x) l.

(** [isinstance(e, ServerError)]. *)
Definition isinstance_ServerError (e : exn) : bool :=
  match e with
  | ServerError _ => true
  | _ => false
  end.

(** [isinstance(e, ValueError)]; [binascii.Error] derives from it. *)
Definition isinstance_ValueError `{Builtins} (e : exn) : bool :=
  match e with
  | ValueError | binascii_Error => true
  | Raised name => raised_is_ValueError name
  | _ => false
  end.

(** Iteration over a value, as a comprehension does it. *)
Definition py_iter (v : pyval) : result (list pyval) :=
  match v with
  | VList l => Ok l
  | VDict d => Ok (map (fun kv => VStr (fst kv)) d)
  | VStr s => Ok (map (fun c => VStr (String c "")) (list_ascii_of_string s))
  | VBytes b => Ok (map (fun x => VInt (Z.of_N (Byte.to_N x))) b)
  | _ => Raise TypeError
  end.

(** [[doc['name'] for doc in documents]], once [documents] is
    iterated. *)
Fixpoint doc_names (docs : list pyval) : result (list pyval) :=
  match docs with
  | [] => Ok []
  | doc :: rest =>
      rbind (subscript doc "name") (fun x =>
      rbind (doc_names rest) (fun xs => Ok (x :: xs)))
  end.

(** The argument of [QListWidget.addItems] is a sequence of [str]. *)
Fixpoint as_strings (l : list pyval) : result (list string) :=
  match l with
  | [] => Ok []
  | VStr s :: rest => rbind (as_strings rest) (fun ss => Ok (s :: ss))
  | _ :: _ => Raise TypeError
  end.

Module ui.

(** [STACK, LOGIN, VERIFY, DOCUMENTS, FILE = range(5)]. *)
Definition STACK : Z := 0.
Definition LOGIN : Z := 1.
Definition VERIFY : Z := 2.
Definition DOCUMENTS : Z := 3.
Definition FILE : Z := 4.

(** What the slots of [ClientApp] read and write: the flag [updating],
    the text of the label [error_message], the current index of the
    stacked layout, the items of [documents.list_view], and the single
    shots of [update_documents] handed to [QTimer]. *)
Record ClientApp : Type := {
  updating : bool;
  error_message : string;
  currentIndex : Z;
  list_view : list string;
  single_shots : nat
}.

(** [ClientApp.__init__]: the first widget added is the current one. *)
Definition ClientApp_init : ClientApp :=
  {| updating := false; error_message := ""; currentIndex := STACK;
     list_view := []; single_shots := 0 |}.

(** What a [QLabel] shows: a text, or a pixmap loaded from bytes. *)
Inductive label_content : Type :=
| Text (s : string)
| Pixmap (content : list byte).

(** [FileWidget]: the attribute [_data], absent until the first
    [display], and its two labels. *)
Record FileWidget : Type := {
  _data : option pyval;
  title : string;
  label : label_content
}.

(** [FileWidget.__init__]. *)
Definition FileWidget_init : FileWidget :=
  {| _data := None; title := ""; label := Text "" |}.

(** [name.split('.')[-1]] for the value [data['name']]. *)
Definition extension (name : pyval) : result string :=
  match name with
  | VStr s => Ok (last (split_dot s) "")
  | VBytes _ => Raise TypeError
  | _ => Raise AttributeError
  end.

Section File.

Context `{Builtins} `{Settings}.

(** [FileWidget.display]: it returns or raises, and leaves a widget
    behind either way. *)
Definition FileWidget_display (data : pyval) (w : FileWidget)
  : result unit * FileWidget :=
  let w0 := {| _data := Some data; title := title w; label := label w |} in
  match rbind (subscript data "name") (fun name =>
        rbind (extension name) (fun ext => Ok (name, ext))) with
  | Raise e => (Raise e, w0)
  | Ok (name, ext) =>
      match dict_get "text" SETTINGS_formats with
      | None => (Raise (KeyError "text"), w0)
      | Some text =>
          if str_in ext text then
            let w1 := {| _data := Some data;
                         title := match name with VStr s => s | _ => "" end;
                         label := label w |} in
            match rbind (subscript data "content") (fun content =>
                  match content with
                  | VBytes b => bytes_decode b
                  | _ => Raise AttributeError
                  end) with
            | Raise e => (Raise e, w1)
            | Ok t => (Ok tt, {| _data := Some data; title := title w1;
                                 label := Text t |})
            end
          else
            match dict_get "image" SETTINGS_formats with
            | None => (Raise (KeyError "image"), w0)
            | Some image =>
                if str_in ext image then
                  let w1 := {| _data := Some data;
                               title := match name with VStr s => s | _ => "" end;
                               label := label w |} in
                  match rbind (subscript data "content") (fun content =>
                        match content with
                        | VBytes b => Ok b
                        | _ => Raise TypeError
                        end) with
                  | Raise e => (Raise e, w1)
                  | Ok b => (Ok tt, {| _data := Some data; title := title w1;
                                       label := Pixmap b |})
                  end
                else
                  (Ok tt, {| _data := Some data; title := title w;
                             label := Text "Format is not supported." |})
            end
      end
  end.

End File.

(** The window and the world of its client object. *)
Record Window (Net : Type) : Type := {
  app : ClientApp;
  world : World Net
}.
Arguments Build_Window {Net} _ _.
Arguments app {Net} _.
Arguments world {Net} _.

Definition UI (Net A : Type) : Type := Window Net -> result A * Window Net.

Definition ret {Net A : Type} (a : A) : UI Net A := fun s => (Ok a, s).

Definition bind {Net A B : Type} (m : UI Net A) (k : A -> UI Net B)
  : UI Net B :=
  fun s =>
    match m s with
    | (Ok a, s') => k a s'
    | (Raise e, s') => (Raise e, s')
    end.

Definition lift {Net A : Type} (r : result A) : UI Net A := fun s => (r, s).

(** [try: body except <classes> as e: handler]. *)
Definition try_except {Net A : Type} (body : UI Net A) (classes : exn -> bool)
           (handler : exn -> UI Net A) : UI Net A :=
  fun s =>
    match body s with
    | (Raise e, s') => if classes e then handler e s' else (Raise e, s')
    | r => r
    end.

(** A method of [self.client]. *)
Definition call {Net A : Type} (m : M Net A) : UI Net A :=
  fun s =>
    let (r, w) := m (world s) in
    (r, {| app := app s; world := w |}).

Definition get_app {Net : Type} : UI Net ClientApp := fun s => (Ok (app s), s).

Definition update_app {Net : Type} (f : ClientApp -> ClientApp) : UI Net unit :=
  fun s => (Ok tt, {| app := f (app s); world := world s |}).

Definition with_error_message (t : string) (a : ClientApp) : ClientApp :=
  {| updating := updating a; error_message := t;
     currentIndex := currentIndex a; list_view := list_view a;
     single_shots := single_shots a |}.

Definition with_currentIndex (i : Z) (a : ClientApp) : ClientApp :=
  {| updating := updating a; error_message := error_message a;
     currentIndex := i; list_view := list_view a;
     single_shots := single_shots a |}.

Definition with_updating (b : bool) (a : ClientApp) : ClientApp :=
  {| updating := b; error_message := error_message a;
     currentIndex := currentIndex a; list_view := list_view a;
     single_shots := single_shots a |}.

Definition with_list_view (l : list string) (a : ClientApp) : ClientApp :=
  {| updating := updating a; error_message := error_message a;
     currentIndex := currentIndex a; list_view := l;
     single_shots := single_shots a |}.

Definition with_single_shots (n : nat) (a : ClientApp) : ClientApp :=
  {| updating := updating a; error_message := error_message a;
     currentIndex := currentIndex a; list_view := list_view a;
     single_shots := n |}.

Declare Scope ui_scope.
Delimit Scope ui_scope with ui.
Notation "x <- m ;; k" := (bind m (fun x => k))
  (at level 61, m at next level, right associativity) : ui_scope.
Notation "m ;; k" := (bind m (fun _ => k))
  (at level 61, right associativity) : ui_scope.

Local Abbreviation Client_login := login (only parsing).

Section Slots.

Context {Net : Type} `{Transport Net} `{Crypto} `{Builtins}
        `{DocumentClient Net}.
Local Open Scope ui_scope.

(** [ClientApp.show_error]. *)
Definition show_error (message : string) : UI Net unit :=
  update_app (with_error_message message).

(** [ClientApp.hide_error]. *)
Definition hide_error : UI Net unit :=
  update_app (with_error_message "").

(** [ClientApp.change_view]. *)
Definition change_view (index : Z) : UI Net unit :=
  hide_error ;;
  update_app (with_currentIndex index).

(** [DocumentsWidget.display]: the list is cleared, then the
    comprehension is evaluated, then its names are added. *)
Definition display (documents : pyval) : UI Net unit :=
  update_app (with_list_view []) ;;
  docs <- lift (py_iter documents) ;;
  names <- lift (doc_names docs) ;;
  items <- lift (as_strings names) ;;
  update_app (fun a => with_list_view (list_view a ++ items) a).

(** [ClientApp.update_documents]. *)
Definition update_documents : UI Net unit :=
  files <- call get_files ;;
  display files ;;
  update_app (fun a => with_single_shots (S (single_shots a)) a).

(** [ClientApp.show_documents]. *)
Definition show_documents : UI Net unit :=
  change_view DOCUMENTS ;;
  files <- call get_files ;;
  display files ;;
  a <- get_app ;;
  if negb (updating a) then
    update_app (with_updating true) ;;
    update_documents
  else ret tt.

(** [ClientApp.set_stack]. *)
Definition set_stack (encryption verification : bool) : UI Net unit :=
  call (update_self (fun c => with_flags encryption (use_verification c) c)) ;;
  call (update_self (fun c => with_flags (use_encryption c) verification c)) ;;
  call connect ;;
  change_view LOGIN.

(** [ClientApp.delete_file]. *)
Definition delete_file (name : string) : UI Net unit :=
  deleted <- call (Client_delete_file name) ;;
  (if truthy deleted
   then show_error ("File '" ++ name ++ "' was deleted.")
   else ret tt) ;;
  show_documents.

(** [ClientApp.on_login]; its first argument hides the method of the
    client, called [Client_login] here. *)
Definition on_login (login password : string) : UI Net unit :=
  if String.eqb login "" || String.eqb password "" then
    show_error "Login and/or password cannot be empty."
  else
    try_except
      (call (Client_login (VStr login) (VStr password)) ;;
       c <- call get_self ;;
       if use_verification c then change_view VERIFY else show_documents)
      (fun e => isinstance_ServerError e || isinstance_ValueError e)
      (fun e => show_error (str_exn e)).

(** [ClientApp.on_verify]. *)
Definition on_verify (code : string) : UI Net unit :=
  try_except
    (call (verify (VStr code)) ;;
     show_documents)
    isinstance_ServerError
    (fun e => show_error (str_exn e)).

End Slots.

End ui.

(** ** A scripted remote end and a toy [crypto], to run the methods *)

Module Fixture.

(** The replies still to come; with none left the connection fails. *)
Definition Script : Type := list (result Response).

#[global] Instance script_transport : Transport Script := {|
  requests_post n _ _ :=
    match n with
    | [] => (Raise (Raised "ConnectionError"), [])
    | r :: n' => (r, n')
    end
|}.

Definition toy_aes (key iv : pyval) : crypto.AESSucker := {|
  crypto.encrypt v :=
    match v with
    | VStr s => Ok (VStr ("aes(" ++ s ++ ")"))
    | _ => Raise TypeError
    end
|}.

(** Every named field must be there and be a string. *)
Fixpoint toy_decrypt (data : pyval) (fields : list string) : result pyval :=
  match fields with
  | [] => Ok data
  | f :: fs =>
      rbind (subscript data f) (fun v =>
      match v with
      | VStr _ => toy_decrypt data fs
      | _ => Raise (Raised "DecryptionError")
      end)
  end.

#[global] Instance toy_crypto : Crypto := {|
  RSASucker := {| crypto.public := VStr "pub"; crypto.decrypt := toy_decrypt |};
  AESSucker key iv := Ok (toy_aes key iv)
|}.

Definition envelope_body (data : pyval) : pyval :=
  VDict [("data", data);
         ("errorDto", VDict [("code", VNone); ("message", VNone)])].

Definition envelope (data : pyval) : Response := {|
  status_code := 200;
  reason := "OK";
  json := Ok (envelope_body data)
|}.

Definition failure (code message : string) (data : pyval) : Response := {|
  status_code := 200;
  reason := "OK";
  json := Ok (VDict [("data", data);
                     ("errorDto", VDict [("code", VStr code);
                                         ("message", VStr message)])])
|}.

Definition handshake (sid : string) : Response :=
  envelope (VDict [("sessionId", VStr sid); ("aesKey", VStr "k");
                   ("ivector", VStr "iv")]).

(** A handshake reply whose [aesKey] cannot be decrypted. *)
Definition bad_handshake (sid : string) : Response :=
  envelope (VDict [("sessionId", VStr sid); ("aesKey", VNone);
                   ("ivector", VStr "iv")]).

Definition token_data (sid secret : string) : pyval :=
  VDict [("sessionId", VStr sid); ("secret", VStr secret)].

Definition token_reply (sid secret : string) : Response :=
  envelope (token_data sid secret).

Definition pending_reply (sid : string) : Response :=
  envelope (VDict [("sessionId", VStr sid)]).

Definition start (enc ver : bool) (replies : Script) : World Script :=
  {| self := Client_init "http://127.0.0.1:8080/" enc ver;
     net := replies; sent := [] |}.

(** A client with the session ["s1"] established by [toy_crypto]. *)
Definition established (enc ver : bool) (replies : Script) : World Script :=
  {| self := with_aes (Some (toy_aes (VStr "k") (VStr "iv")))
               (with_session_id (VStr "s1")
                  (Client_init "http://127.0.0.1:8080/" enc ver));
     net := replies; sent := [] |}.

Definition bytes_of (s : string) : list byte := list_byte_of_string s.

(** [str(e)] for the exceptions met in the runs below. *)
#[global] Instance toy_builtins : Builtins := {|
  str_exn e :=
    match e with
    | ServerError (VStr s) => s
    | ValueError => "string argument should contain only ASCII characters"
    | binascii_Error => "Incorrect padding"
    | _ => ""
    end;
  raised_is_ValueError _ := false;
  bytes_decode b := Ok (string_of_list_byte b)
|}.

(** The client of [client.py]: it has none of the two methods. *)
#[global] Instance no_get_files : DocumentClient Script := {|
  get_files := lift (Raise AttributeError);
  Client_delete_file _ := lift (Raise AttributeError)
|}.

(** A client that deletes what it is asked to and lists one file. *)
Definition one_file : DocumentClient Script := {|
  get_files := ret (VList [VDict [("name", VStr "notes.txt")]]);
  Client_delete_file _ := ret (VBool true)
|}.

#[global] Instance toy_settings : Settings := {|
  SETTINGS_formats := [("text", ["txt"; "md"]); ("image", ["png"; "jpg"])]
|}.

(** The window as [ClientApp.__init__] leaves it, around a world. *)
Definition window (w : World Script) : ui.Window Script :=
  {| ui.app := ui.ClientApp_init; ui.world := w |}.

End Fixture.

(** ** Running the model *)

Example b64decode_secret :
  base64.b64decode (VStr "c2VjcmV0") = Ok (Fixture.bytes_of "secret").
Proof. reflexivity. Qed.

Example b64decode_token :
  base64.b64decode (VStr "dG9rZW4=") = Ok (Fixture.bytes_of "token").
Proof. reflexivity. Qed.

Example b64decode_open_quad :
  base64.b64decode (VStr "dG9rZW4") = Raise binascii_Error.
Proof. reflexivity. Qed.

Example connect_runs :
  let w := Fixture.established true false [] in
  connect (Fixture.start true false [Ok (Fixture.handshake "s1")])
  = (Ok tt, {| self := self w; net := [];
               sent := [("http://127.0.0.1:8080/rsakey",
                         rsakey_request (self w))] |}).
Proof. reflexivity. Qed.

Example login_runs :
  fst (login (VStr "alice") (VStr "pw")
         (Fixture.established true false
            [Ok (Fixture.token_reply "s1" "c2VjcmV0")]))
  = Ok tt.
Proof. reflexivity. Qed.

(** ** Validation *)

Lemma negb_eqb_200 (n : Z) : n <> 200 -> negb (n =? 200) = true.
Proof. intro Hn. apply negb_true_iff, Z.eqb_neq, Hn. Qed.

(** A status other than 200 decides the outcome on its own. *)
Lemma check_response_status (c : Client) (r : Response) :
  status_code r <> 200 ->
  check_response c r
  = Raise (ServerError (VStr ("HTTP Response error: "
                                ++ str_int (status_code r) ++ " "
                                ++ reason r))).
Proof.
  intro Hs. unfold check_response. now rewrite (negb_eqb_200 _ Hs).
Qed.

(** With a falsy identity the third test is never evaluated. *)
Lemma check_response_falsy (c : Client) (r : Response) :
  truthy (session_id c) = false ->
  check_response c r = check_response (with_session_id VNone c) r.
Proof.
  intro Ht. unfold check_response. simpl. rewrite Ht. reflexivity.
Qed.

(** A reply with status 200 and a null error code, seen by a client
    whose identity is falsy or equal to the reply's. *)
Lemma check_response_accepts (c : Client) (r : Response) (body dto : pyval) :
  status_code r = 200 ->
  json r = Ok body ->
  subscript body "errorDto" = Ok dto ->
  subscript dto "code" = Ok VNone ->
  truthy (session_id c) = false
  \/ (exists data sid, subscript body "data" = Ok data
                       /\ subscript data "sessionId" = Ok sid
                       /\ py_eq (session_id c) sid = true) ->
  check_response c r = Ok tt.
Proof.
  intros Hs Hj Hd Hc Hsid. unfold check_response.
  rewrite Hs, Hj. simpl. rewrite Hd. simpl. rewrite Hc. simpl.
  destruct (truthy (session_id c)) eqn:Ht; [|reflexivity].
  destruct Hsid as [Hf | (data & sid & H1 & H2 & H3)]; [discriminate|].
  rewrite H1. simpl. rewrite H2. simpl. unfold py_ne. now rewrite H3.
Qed.

(** The same reply, seen by a client whose identity is truthy and
    differs from the reply's. *)
Lemma check_response_mismatch (c : Client) (r : Response)
      (body dto data sid : pyval) :
  status_code r = 200 ->
  json r = Ok body ->
  subscript body "errorDto" = Ok dto ->
  subscript dto "code" = Ok VNone ->
  truthy (session_id c) = true ->
  subscript body "data" = Ok data ->
  subscript data "sessionId" = Ok sid ->
  py_ne (session_id c) sid = true ->
  check_response c r = Raise (ServerError (VStr "Invalid SessionID. ")).
Proof.
  intros Hs Hj Hd Hc Ht H1 H2 H3. unfold check_response.
  rewrite Hs, Hj. simpl. rewrite Hd. simpl. rewrite Hc. simpl.
  rewrite Ht, H1. simpl. rewrite H2. simpl. now rewrite H3.
Qed.

(** C3: a response whose status is not 200 is rejected with the
    [ServerError] that reports the HTTP status and reason, whatever its
    body says: the status test comes first, so neither the error code
    (and with it the server's message) nor the session identity is
    looked at, and the outcome is the same for every body and every
    stored identity. *)
Theorem transport_status_checked_first (c : Client) (r : Response) :
  status_code r <> 200 ->
  check_response c r
  = Raise (ServerError (VStr ("HTTP Response error: "
                                ++ str_int (status_code r) ++ " "
                                ++ reason r)))
  /\ (forall (c' : Client) (j : result pyval),
         check_response c'
           {| status_code := status_code r; reason := reason r; json := j |}
         = check_response c r).
Proof.
  intro Hs. split.
  - now apply check_response_status.
  - intros c' j. rewrite (check_response_status c r Hs).
    now rewrite check_response_status.
Qed.

Lemma transport_status_checked_first_witness :
  check_response (self (Fixture.established true false []))
    {| status_code := 500; reason := "Internal Server Error";
       json := Ok (VDict [("data", VNone);
                          ("errorDto", VDict [("code", VStr "E42");
                                              ("message", VStr "Wrong password")])]) |}
  = Raise (ServerError (VStr "HTTP Response error: 500 Internal Server Error")).
Proof.
  apply (transport_status_checked_first
           (self (Fixture.established true false []))
           {| status_code := 500; reason := "Internal Server Error";
              json := Ok (VDict [("data", VNone);
                                 ("errorDto", VDict [("code", VStr "E42");
                                                     ("message", VStr "Wrong password")])]) |}).
  simpl. lia.
Defined.

(** C2: on a client holding the identity ["s1"], a reply with a null
    error code and the identity ["s2"] is rejected with a [ServerError],
    the very class raised for an error reported by the server: the two
    cannot be told apart by their kind. *)
Theorem session_mismatch_is_ServerError :
  let c := self (Fixture.established true false []) in
  let mismatch := Fixture.token_reply "s2" "c2VjcmV0" in
  let refused :=
    Fixture.failure "E42" "Wrong password" (VDict [("sessionId", VStr "s1")]) in
  check_response c mismatch = Raise (ServerError (VStr "Invalid SessionID. "))
  /\ check_response c refused = Raise (ServerError (VStr "Wrong password"))
  /\ class_of (ServerError (VStr "Invalid SessionID. "))
     = class_of (ServerError (VStr "Wrong password")).
Proof. repeat split. Qed.

(** C10: the identity test is guarded by the truth value of the stored
    identity.  With a falsy one (the empty string, say) validation is
    the validation of a client with no identity at all, and every reply
    with status 200 and a null error code is accepted, whatever
    [data.sessionId] it carries. *)
Theorem falsy_session_id_is_not_enforced (c : Client) (r : Response) :
  truthy (session_id c) = false ->
  check_response c r = check_response (with_session_id VNone c) r
  /\ (forall body dto : pyval,
         status_code r = 200 ->
         json r = Ok body ->
         subscript body "errorDto" = Ok dto ->
         subscript dto "code" = Ok VNone ->
         check_response c r = Ok tt).
Proof.
  intro Ht. split.
  - now apply check_response_falsy.
  - intros body dto Hs Hj Hd Hc.
    apply (check_response_accepts c r body dto Hs Hj Hd Hc). now left.
Qed.

Lemma falsy_session_id_is_not_enforced_witness :
  let w := snd (connect (Fixture.start true false [Ok (Fixture.handshake "")])) in
  session_id (self w) = VStr ""
  /\ check_response (self w) (Fixture.token_reply "s2" "c2VjcmV0") = Ok tt.
Proof.
  split; [reflexivity|].
  refine (proj2 (falsy_session_id_is_not_enforced _ _ _) _ _ _ _ _ _);
    reflexivity.
Defined.

(** ** Requests *)

Ltac run_method :=
  unfold bind, get_self, lift, update_self, ret; simpl.

Section Requests.

Context {Net : Type} `{Transport Net} `{Crypto}.

(** One request: the reply is validated against the client as it is,
    the client is left alone and the request is logged, whether the
    call returns or raises. *)
Lemma make_request_eq (endpoint : string) (data : pyval) (w : World Net) :
  make_request endpoint data w
  = (rbind (fst (requests_post (net w) (base_url (self w) ++ endpoint) data))
       (fun response =>
          rbind (check_response (self w) response) (fun _ =>
          rbind (json response) (fun body => subscript body "data"))),
     {| self := self w;
        net := snd (requests_post (net w) (base_url (self w) ++ endpoint) data);
        sent := (base_url (self w) ++ endpoint, data) :: sent w |}).
Proof.
  unfold make_request, post. run_method.
  destruct (requests_post (net w) (base_url (self w) ++ endpoint) data)
    as [[response | e] n]; simpl; [|reflexivity].
  destruct (check_response (self w) response) as [[] | e]; simpl;
    [|reflexivity].
  destruct (json response) as [body | e]; reflexivity.
Qed.

Lemma make_request_self (endpoint : string) (data : pyval) (w : World Net) :
  self (snd (make_request endpoint data w)) = self w.
Proof. now rewrite make_request_eq. Qed.

(** A request that returns: the reply passed validation. *)
Lemma make_request_returns (endpoint : string) (data : pyval) (w : World Net)
      (response : Response) (n : Net) (body d : pyval) :
  requests_post (net w) (base_url (self w) ++ endpoint) data = (Ok response, n) ->
  check_response (self w) response = Ok tt ->
  json response = Ok body ->
  subscript body "data" = Ok d ->
  make_request endpoint data w
  = (Ok d, {| self := self w; net := n;
              sent := (base_url (self w) ++ endpoint, data) :: sent w |}).
Proof.
  intros Hp Hc Hj Hd. rewrite make_request_eq, Hp. simpl.
  rewrite Hc. simpl. rewrite Hj. simpl. now rewrite Hd.
Qed.

(** A request whose reply is refused. *)
Lemma make_request_refused (endpoint : string) (data : pyval) (w : World Net)
      (response : Response) (n : Net) (e : exn) :
  requests_post (net w) (base_url (self w) ++ endpoint) data = (Ok response, n) ->
  check_response (self w) response = Raise e ->
  make_request endpoint data w
  = (Raise e, {| self := self w; net := n;
                 sent := (base_url (self w) ++ endpoint, data) :: sent w |}).
Proof.
  intros Hp Hc. rewrite make_request_eq, Hp. simpl. now rewrite Hc.
Qed.

(** [connect] once its request has returned or raised. *)
Lemma connect_request_raises (w w1 : World Net) (e : exn) :
  make_request "rsakey" (rsakey_request (self w)) w = (Raise e, w1) ->
  connect w = (Raise e, w1).
Proof.
  intro Hm. unfold connect. run_method. now rewrite Hm.
Qed.

Lemma connect_request_returns (w w1 : World Net) (data : pyval) :
  make_request "rsakey" (rsakey_request (self w)) w = (Ok data, w1) ->
  connect w
  = match subscript data "sessionId" with
    | Raise e => (Raise e, w1)
    | Ok sid =>
        let w2 := {| self := with_session_id sid (self w1);
                     net := net w1; sent := sent w1 |} in
        match
          rbind (crypto.decrypt (rsa (self w1)) data ["aesKey"; "ivector"])
            (fun data' =>
               rbind (subscript data' "aesKey") (fun key =>
               rbind (subscript data' "ivector") (fun iv =>
               AESSucker key iv)))
        with
        | Raise e => (Raise e, w2)
        | Ok a => (Ok tt, {| self := with_aes (Some a) (self w2);
                             net := net w1; sent := sent w1 |})
        end
    end.
Proof.
  intro Hm. unfold connect. run_method. rewrite Hm.
  destruct (subscript data "sessionId") as [sid | e]; simpl; [|reflexivity].
  destruct (crypto.decrypt (rsa (self w1)) data ["aesKey"; "ivector"])
    as [data' | e]; simpl; [|reflexivity].
  destruct (subscript data' "aesKey") as [key | e]; simpl; [|reflexivity].
  destruct (subscript data' "ivector") as [iv | e]; simpl; [|reflexivity].
  destruct (AESSucker key iv) as [a | e]; reflexivity.
Qed.

(** C1, as the code has it: a [connect] that raises installs no
    cipher ([aes] is what it was before the call, [None] on a client
    that never connected), and when it is the request that raises
    (the transport fails, or the reply is refused by validation) the
    client is left exactly as it was, identity included. *)
Theorem connect_failure_installs_no_cipher (w w' : World Net) (e : exn) :
  connect w = (Raise e, w') ->
  aes (self w') = aes (self w)
  /\ (forall (e1 : exn) (w1 : World Net),
         make_request "rsakey" (rsakey_request (self w)) w = (Raise e1, w1) ->
         e = e1 /\ self w' = self w).
Proof.
  intro Hc.
  destruct (make_request "rsakey" (rsakey_request (self w)) w)
    as [[data | e0] w0] eqn:Hm.
  - pose proof (make_request_self "rsakey" (rsakey_request (self w)) w) as Hs.
    rewrite Hm in Hs. simpl in Hs.
    rewrite (connect_request_returns _ _ _ Hm) in Hc.
    split; [|discriminate].
    destruct (subscript data "sessionId") as [sid | e2].
    + cbv zeta in Hc.
      destruct (rbind (crypto.decrypt (rsa (self w0)) data ["aesKey"; "ivector"]) _)
        as [a | e3]; [discriminate|].
      injection Hc as _ <-. simpl. now rewrite Hs.
    + injection Hc as _ <-. now rewrite Hs.
  - rewrite (connect_request_raises _ _ _ Hm) in Hc.
    injection Hc as <- <-.
    pose proof (make_request_self "rsakey" (rsakey_request (self w)) w) as Hs.
    rewrite Hm in Hs. simpl in Hs.
    split; [now rewrite Hs|].
    intros e1 w1 Heq. injection Heq as <- <-. now split.
Qed.

End Requests.

Lemma connect_failure_installs_no_cipher_witness :
  let w := Fixture.start true false
             [Ok {| status_code := 500; reason := "Internal Server Error";
                    json := Raise ValueError |}] in
  aes (self (snd (connect w))) = None
  /\ session_id (self (snd (connect w))) = VNone.
Proof.
  intro w.
  assert (Hc : connect w
               = (Raise (ServerError
                           (VStr "HTTP Response error: 500 Internal Server Error")),
                  snd (connect w))) by reflexivity.
  destruct (connect_failure_installs_no_cipher w _ _ Hc) as [Ha Hs].
  split.
  - exact Ha.
  - assert (Hm : make_request "rsakey" (rsakey_request (self w)) w
                 = (Raise (ServerError
                             (VStr "HTTP Response error: 500 Internal Server Error")),
                    snd (connect w))) by reflexivity.
    destruct (Hs _ _ Hm) as [_ Hself]. now rewrite Hself.
Defined.

(** C1 fails as stated: on a fresh client, a handshake whose reply is
    valid but whose [aesKey] cannot be decrypted raises after the
    identity ["s1"] has been stored. *)
Lemma connect_failure_keeps_session_id :
  let w := Fixture.start true false [Ok (Fixture.bad_handshake "s1")] in
  session_id (self w) = VNone
  /\ aes (self w) = None
  /\ fst (connect w) = Raise (Raised "DecryptionError")
  /\ session_id (self (snd (connect w))) = VStr "s1"
  /\ session_id (self (snd (connect w))) <> VNone.
Proof. repeat split. discriminate. Qed.

Section Handshake.

Context {Net : Type} `{Transport Net} `{Crypto}.

(** C9, as the code has it: the reply to a handshake is validated
    like any other, against the identity the client holds.  Take a
    handshake reply with status 200 and a null error code.  If the
    stored identity is truthy and differs from the reply's,
    [connect] raises [ServerError] and the client keeps its old
    identity and cipher.  If the stored identity is falsy or equal to
    the reply's, and the key material decrypts, [connect] returns
    with the reply's identity and a cipher built from the reply's
    material in place of the old ones. *)
Theorem reconnect_validates_against_old_session
        (w : World Net) (response : Response) (n : Net)
        (body dto data sid : pyval) :
  requests_post (net w) (base_url (self w) ++ "rsakey")
    (rsakey_request (self w)) = (Ok response, n) ->
  status_code response = 200 ->
  json response = Ok body ->
  subscript body "errorDto" = Ok dto ->
  subscript dto "code" = Ok VNone ->
  subscript body "data" = Ok data ->
  subscript data "sessionId" = Ok sid ->
  let w1 := {| self := self w; net := n;
               sent := (base_url (self w) ++ "rsakey",
                        rsakey_request (self w)) :: sent w |} in
  (truthy (session_id (self w)) && py_ne (session_id (self w)) sid = true ->
   connect w = (Raise (ServerError (VStr "Invalid SessionID. ")), w1))
  /\ (forall (data' key iv : pyval) (a : crypto.AESSucker),
         truthy (session_id (self w)) && py_ne (session_id (self w)) sid = false ->
         crypto.decrypt (rsa (self w)) data ["aesKey"; "ivector"] = Ok data' ->
         subscript data' "aesKey" = Ok key ->
         subscript data' "ivector" = Ok iv ->
         AESSucker key iv = Ok a ->
         connect w
         = (Ok tt, {| self := with_aes (Some a) (with_session_id sid (self w));
                      net := n; sent := sent w1 |})).
Proof.
  intros Hp Hs Hj Hd Hc Hdata Hsid w1. split.
  - intro Hne. apply andb_true_iff in Hne as [Ht Hne].
    apply connect_request_raises.
    apply (make_request_refused _ _ _ _ _ _ Hp).
    exact (check_response_mismatch _ _ _ _ _ _ Hs Hj Hd Hc Ht Hdata Hsid Hne).
  - intros data' key iv a Heq Hdec Hkey Hiv Ha.
    assert (Hok : check_response (self w) response = Ok tt).
    { apply (check_response_accepts _ _ _ _ Hs Hj Hd Hc).
      apply andb_false_iff in Heq as [Ht | Hne]; [now left|right].
      exists data, sid. repeat split; trivial.
      unfold py_ne in Hne. now apply negb_false_iff in Hne. }
    rewrite (connect_request_returns _ _ _
               (make_request_returns _ _ _ _ _ _ _ Hp Hok Hj Hdata)).
    rewrite Hsid. simpl. rewrite Hdec. simpl. rewrite Hkey. simpl.
    rewrite Hiv. simpl. now rewrite Ha.
Qed.

End Handshake.

Lemma reconnect_validates_against_old_session_witness :
  fst (connect (Fixture.established true false [Ok (Fixture.handshake "s2")]))
  = Raise (ServerError (VStr "Invalid SessionID. "))
  /\ fst (connect (Fixture.established true false [Ok (Fixture.handshake "s1")]))
     = Ok tt.
Proof.
  split.
  - pose proof (reconnect_validates_against_old_session
                  (Fixture.established true false [Ok (Fixture.handshake "s2")])
                  (Fixture.handshake "s2") [] _ _ _ (VStr "s2")
                  eq_refl eq_refl eq_refl eq_refl eq_refl eq_refl eq_refl) as Hw.
    cbv zeta in Hw. destruct Hw as [Hw _]. now rewrite (Hw eq_refl).
  - pose proof (reconnect_validates_against_old_session
                  (Fixture.established true false [Ok (Fixture.handshake "s1")])
                  (Fixture.handshake "s1") [] _ _ _ (VStr "s1")
                  eq_refl eq_refl eq_refl eq_refl eq_refl eq_refl eq_refl) as Hw.
    cbv zeta in Hw. destruct Hw as [_ Hw].
    now rewrite (Hw _ (VStr "k") (VStr "iv") _ eq_refl eq_refl eq_refl eq_refl eq_refl).
Defined.

(** C9 fails as stated: a client holding the session ["s1"] that
    connects again and is answered with the identity ["s2"] raises, and
    keeps the identity ["s1"] and its old cipher. *)
Lemma reconnect_with_new_session_id_raises :
  let w := Fixture.established true false [Ok (Fixture.handshake "s2")] in
  fst (connect w) = Raise (ServerError (VStr "Invalid SessionID. "))
  /\ self (snd (connect w)) = self w
  /\ session_id (self (snd (connect w))) = VStr "s1".
Proof. repeat split. Qed.

(** ** Login and verification *)

Section Credentials.

Context {Net : Type} `{Transport Net} `{Crypto}.

Lemma build_token_eq (data : pyval) (w : World Net) :
  build_token data w
  = match rbind (subscript data "secret") base64.b64decode with
    | Ok t => (Ok tt, {| self := with_secret (Some t) (self w);
                         net := net w; sent := sent w |})
    | Raise e => (Raise e, w)
    end.
Proof.
  unfold build_token. run_method.
  destruct (subscript data "secret") as [s | e]; simpl; [|reflexivity].
  destruct (base64.b64decode s); reflexivity.
Qed.

(** [login] stops at the first field that cannot be encrypted, before
    anything is sent. *)
Lemma login_eq (l p : pyval) (w : World Net) :
  login l p w
  = match encrypt (self w) l with
    | Raise e => (Raise e, w)
    | Ok l' =>
        match encrypt (self w) p with
        | Raise e => (Raise e, w)
        | Ok p' =>
            match make_request "login"
                    (login_request (session_id (self w)) l' p') w with
            | (Raise e, w1) => (Raise e, w1)
            | (Ok data, w1) =>
                if negb (use_verification (self w)) then build_token data w1
                else (Ok tt, w1)
            end
        end
    end.
Proof.
  unfold login. run_method.
  destruct (encrypt (self w) l) as [l' | e]; simpl; [|reflexivity].
  destruct (encrypt (self w) p) as [p' | e]; simpl; [|reflexivity].
  pose proof (make_request_self "login"
                (login_request (session_id (self w)) l' p') w) as Hs.
  destruct (make_request "login" _ w) as [[data | e] w1]; simpl in *;
    [|reflexivity].
  rewrite Hs. now destruct (use_verification (self w)).
Qed.

Lemma verify_eq (code : pyval) (w : World Net) :
  verify code w
  = match encrypt (self w) code with
    | Raise e => (Raise e, w)
    | Ok e =>
        match make_request "verify"
                (verify_request e (session_id (self w))) w with
        | (Raise e, w1) => (Raise e, w1)
        | (Ok data, w1) => build_token data w1
        end
    end.
Proof.
  unfold verify. run_method.
  destruct (encrypt (self w) code) as [e | e]; simpl; [|reflexivity].
  destruct (make_request "verify" _ w) as [[data | e'] w1]; reflexivity.
Qed.

(** A [verify] that goes through. *)
Lemma verify_returns (code e : pyval) (w : World Net)
      (response : Response) (n : Net) (body data s : pyval) (t : list byte) :
  encrypt (self w) code = Ok e ->
  requests_post (net w) (base_url (self w) ++ "verify")
    (verify_request e (session_id (self w))) = (Ok response, n) ->
  check_response (self w) response = Ok tt ->
  json response = Ok body ->
  subscript body "data" = Ok data ->
  subscript data "secret" = Ok s ->
  base64.b64decode s = Ok t ->
  verify code w
  = (Ok tt, {| self := with_secret (Some t) (self w); net := n;
               sent := (base_url (self w) ++ "verify",
                        verify_request e (session_id (self w))) :: sent w |}).
Proof.
  intros He Hp Hc Hj Hd Hs Ht. rewrite verify_eq, He.
  rewrite (make_request_returns _ _ _ _ _ _ _ Hp Hc Hj Hd).
  rewrite build_token_eq, Hs. simpl. now rewrite Ht.
Qed.

(** A [login] whose request goes through. *)
Lemma login_request_returns (l p l' p' : pyval) (w : World Net)
      (response : Response) (n : Net) (body data : pyval) :
  encrypt (self w) l = Ok l' ->
  encrypt (self w) p = Ok p' ->
  requests_post (net w) (base_url (self w) ++ "login")
    (login_request (session_id (self w)) l' p') = (Ok response, n) ->
  check_response (self w) response = Ok tt ->
  json response = Ok body ->
  subscript body "data" = Ok data ->
  login l p w
  = let w1 := {| self := self w; net := n;
                 sent := (base_url (self w) ++ "login",
                          login_request (session_id (self w)) l' p')
                         :: sent w |} in
    if negb (use_verification (self w)) then build_token data w1
    else (Ok tt, w1).
Proof.
  intros Hl Hpw Hp Hc Hj Hd. rewrite login_eq, Hl, Hpw.
  now rewrite (make_request_returns _ _ _ _ _ _ _ Hp Hc Hj Hd).
Qed.

(** C4, as the code has it: [login] makes no test of its own on the
    state of the session.  On a client with no cipher (no [connect]
    has returned) and with encryption enabled, the call raises
    [AttributeError] when it reaches for the cipher, and leaves the
    world as it was: nothing is sent. *)
Theorem login_without_cipher_raises (l p : pyval) (w : World Net) :
  aes (self w) = None ->
  use_encryption (self w) = true ->
  login l p w = (Raise AttributeError, w).
Proof.
  intros Ha He. rewrite login_eq. unfold encrypt. now rewrite He, Ha.
Qed.

(** C6: on a client with verification not required, a [login] whose
    fields encrypt and whose reply passes validation with a base64
    field [secret] returns, sets the token to the decoding of that
    field and leaves the client authenticated; the secret
    ["c2VjcmV0"] decodes to [b"secret"]. *)
Theorem login_sets_token (l p l' p' : pyval) (w : World Net)
        (response : Response) (n : Net) (body data s : pyval)
        (t : list byte) :
  use_verification (self w) = false ->
  encrypt (self w) l = Ok l' ->
  encrypt (self w) p = Ok p' ->
  requests_post (net w) (base_url (self w) ++ "login")
    (login_request (session_id (self w)) l' p') = (Ok response, n) ->
  check_response (self w) response = Ok tt ->
  json response = Ok body ->
  subscript body "data" = Ok data ->
  subscript data "secret" = Ok s ->
  base64.b64decode s = Ok t ->
  fst (login l p w) = Ok tt
  /\ secret (self (snd (login l p w))) = Some t
  /\ authenticated (self (snd (login l p w))) = true
  /\ base64.b64decode (VStr "c2VjcmV0") = Ok (Fixture.bytes_of "secret").
Proof.
  intros Hv Hl Hpw Hp Hc Hj Hd Hs Ht.
  rewrite (login_request_returns _ _ _ _ _ _ _ _ _ Hl Hpw Hp Hc Hj Hd).
  cbv zeta. rewrite Hv. simpl negb. cbv iota.
  rewrite build_token_eq, Hs. simpl rbind. rewrite Ht.
  repeat split.
Qed.

(** C7: on a client with verification required, [login] never
    touches the token, whatever the call does (the client it leaves
    is the client it found); a following [verify] whose code encrypts
    and whose reply passes validation with a base64 field [secret]
    returns, sets the token to the decoding of that field and leaves
    the client authenticated; the secret ["dG9rZW4="] decodes to
    [b"token"]. *)
Theorem verify_sets_token_after_login
        (l p code e : pyval) (w : World Net)
        (response : Response) (n : Net) (body data s : pyval)
        (t : list byte) :
  use_verification (self w) = true ->
  let w1 := snd (login l p w) in
  self w1 = self w
  /\ (encrypt (self w1) code = Ok e ->
      requests_post (net w1) (base_url (self w1) ++ "verify")
        (verify_request e (session_id (self w1))) = (Ok response, n) ->
      check_response (self w1) response = Ok tt ->
      json response = Ok body ->
      subscript body "data" = Ok data ->
      subscript data "secret" = Ok s ->
      base64.b64decode s = Ok t ->
      fst (verify code w1) = Ok tt
      /\ secret (self (snd (verify code w1))) = Some t
      /\ authenticated (self (snd (verify code w1))) = true)
  /\ base64.b64decode (VStr "dG9rZW4=") = Ok (Fixture.bytes_of "token").
Proof.
  intros Hv w1. split; [|split; [|reflexivity]].
  - subst w1. rewrite login_eq.
    destruct (encrypt (self w) l) as [l' | e1]; [|reflexivity].
    destruct (encrypt (self w) p) as [p' | e1]; [|reflexivity].
    pose proof (make_request_self "login"
                  (login_request (session_id (self w)) l' p') w) as Hs.
    destruct (make_request "login" _ w) as [[d | e1] w2]; simpl in Hs.
    + now rewrite Hv.
    + exact Hs.
  - intros He Hp Hc Hj Hd Hs Ht.
    rewrite (verify_returns _ _ _ _ _ _ _ _ _ He Hp Hc Hj Hd Hs Ht).
    repeat split.
Qed.

Lemma check_response_session_id (c c' : Client) (r : Response) :
  session_id c' = session_id c ->
  check_response c' r = check_response c r.
Proof. intro Hs. unfold check_response. now rewrite Hs. Qed.

Lemma build_token_sent (data : pyval) (w : World Net) :
  sent (snd (build_token data w)) = sent w
  /\ net (snd (build_token data w)) = net w.
Proof.
  rewrite build_token_eq.
  destruct (rbind (subscript data "secret") base64.b64decode); now split.
Qed.

(** C5, as the code has it: [verify] makes no test on the state of
    the session.  What it returns or raises, what it sends and what
    is left of the remote end are the same whatever the verification
    flag and the token of the client are, that is whether or not
    verification is enabled and whether or not a login has returned;
    and a [verify] whose code encrypts and whose reply passes
    validation with a base64 field [secret] returns and sets the
    token. *)
Theorem verify_ignores_session_state
        (code : pyval) (w : World Net) (ver : bool)
        (tok : option (list byte)) :
  let w' := set_self (with_secret tok
                        (with_flags (use_encryption (self w)) ver (self w))) w in
  fst (verify code w') = fst (verify code w)
  /\ net (snd (verify code w')) = net (snd (verify code w))
  /\ sent (snd (verify code w')) = sent (snd (verify code w))
  /\ (forall (e : pyval) (response : Response) (n : Net)
             (body data s : pyval) (t : list byte),
         encrypt (self w) code = Ok e ->
         requests_post (net w) (base_url (self w) ++ "verify")
           (verify_request e (session_id (self w))) = (Ok response, n) ->
         check_response (self w) response = Ok tt ->
         json response = Ok body ->
         subscript body "data" = Ok data ->
         subscript data "secret" = Ok s ->
         base64.b64decode s = Ok t ->
         fst (verify code w) = Ok tt
         /\ secret (self (snd (verify code w))) = Some t).
Proof.
  intro w'.
  assert (Hsame : fst (verify code w') = fst (verify code w)
                  /\ net (snd (verify code w')) = net (snd (verify code w))
                  /\ sent (snd (verify code w')) = sent (snd (verify code w))).
  2: { destruct Hsame as (H1 & H2 & H3).
       split; [exact H1|]. split; [exact H2|]. split; [exact H3|].
       intros e response n body data s t He Hp Hc Hj Hd Hs Ht.
       rewrite (verify_returns _ _ _ _ _ _ _ _ _ He Hp Hc Hj Hd Hs Ht).
       now split. }
  { subst w'. rewrite !verify_eq. unfold set_self at 1 2 3. simpl self.
    replace (encrypt (with_secret tok (with_flags _ ver (self w))) code)
      with (encrypt (self w) code) by reflexivity.
    destruct (encrypt (self w) code) as [e | e]; [|now repeat split].
    rewrite !make_request_eq. simpl.
    destruct (requests_post (net w) (base_url (self w) ++ "verify")
                (verify_request e (session_id (self w))))
      as [[response | e1] n]; simpl; [|now repeat split].
    rewrite (check_response_session_id (self w)
               (with_secret tok (with_flags _ ver (self w))) response eq_refl).
    destruct (check_response (self w) response) as [[] | e1]; simpl;
      [|now repeat split].
    destruct (json response) as [body | e1]; simpl; [|now repeat split].
    destruct (subscript body "data") as [data | e1]; simpl;
      [|now repeat split].
    rewrite !build_token_eq.
    destruct (rbind (subscript data "secret") base64.b64decode);
      now repeat split. }
Qed.


End Credentials.

(** ** The scenarios, run *)

Lemma login_without_cipher_raises_witness :
  let w := Fixture.start true false [Ok (Fixture.token_reply "s1" "c2VjcmV0")] in
  login (VStr "alice") (VStr "pw") w = (Raise AttributeError, w)
  /\ sent (snd (login (VStr "alice") (VStr "pw") w)) = [].
Proof.
  intro w.
  pose proof (login_without_cipher_raises (VStr "alice") (VStr "pw") w
                eq_refl eq_refl) as Hl.
  split; [exact Hl | now rewrite Hl].
Defined.

(** C4 fails as stated: on a fresh client with encryption disabled,
    [login] before any [connect] sends its request, with the identity
    [None] and the credentials in clear, and returns if the server
    accepts it. *)
Lemma login_before_connect_sends_request :
  let w := Fixture.start false false [Ok (Fixture.token_reply "s1" "c2VjcmV0")] in
  aes (self w) = None
  /\ session_id (self w) = VNone
  /\ fst (login (VStr "alice") (VStr "pw") w) = Ok tt
  /\ sent (snd (login (VStr "alice") (VStr "pw") w))
     = [("http://127.0.0.1:8080/login",
         login_request VNone (VStr "alice") (VStr "pw"))].
Proof. repeat split. Qed.

Lemma verify_ignores_session_state_witness :
  let w := Fixture.established true false
             [Ok (Fixture.token_reply "s1" "dG9rZW4=")] in
  let w' := set_self (with_secret (Some (Fixture.bytes_of "old"))
                        (with_flags true true (self w))) w in
  fst (verify (VStr "123456") w') = fst (verify (VStr "123456") w)
  /\ fst (verify (VStr "123456") w) = Ok tt
  /\ secret (self (snd (verify (VStr "123456") w)))
     = Some (Fixture.bytes_of "token").
Proof.
  intros w w'.
  destruct (verify_ignores_session_state (VStr "123456") w true
              (Some (Fixture.bytes_of "old"))) as (H1 & _ & _ & H4).
  split; [exact H1|].
  exact (H4 (VStr "aes(123456)") (Fixture.token_reply "s1" "dG9rZW4=") []
            _ _ (VStr "dG9rZW4=") _
            eq_refl eq_refl eq_refl eq_refl eq_refl eq_refl eq_refl).
Defined.

(** C5 fails as stated: on an established session with verification
    not enabled and no login made, [verify] returns and sets the
    token. *)
Lemma verify_without_login_returns :
  let w := Fixture.established true false
             [Ok (Fixture.token_reply "s1" "dG9rZW4=")] in
  use_verification (self w) = false
  /\ secret (self w) = None
  /\ sent w = []
  /\ fst (verify (VStr "123456") w) = Ok tt
  /\ secret (self (snd (verify (VStr "123456") w)))
     = Some (Fixture.bytes_of "token").
Proof. repeat split. Qed.

Lemma login_sets_token_witness :
  let w := snd (connect (Fixture.start true false
                           [Ok (Fixture.handshake "s1");
                            Ok (Fixture.token_reply "s1" "c2VjcmV0")])) in
  fst (login (VStr "alice") (VStr "pw") w) = Ok tt
  /\ secret (self (snd (login (VStr "alice") (VStr "pw") w)))
     = Some (Fixture.bytes_of "secret")
  /\ authenticated (self (snd (login (VStr "alice") (VStr "pw") w))) = true.
Proof.
  intro w.
  destruct (login_sets_token (H := Fixture.script_transport)
              (VStr "alice") (VStr "pw")
              (VStr "aes(alice)") (VStr "aes(pw)") w
              (Fixture.token_reply "s1" "c2VjcmV0") [] _ _ (VStr "c2VjcmV0")
              (Fixture.bytes_of "secret")
              eq_refl eq_refl eq_refl eq_refl eq_refl eq_refl eq_refl eq_refl
              eq_refl) as (H1 & H2 & H3 & _).
  repeat split; assumption.
Defined.

Lemma verify_sets_token_after_login_witness :
  let w := snd (connect (Fixture.start true true
                           [Ok (Fixture.handshake "s1");
                            Ok (Fixture.pending_reply "s1");
                            Ok (Fixture.token_reply "s1" "dG9rZW4=")])) in
  let w1 := snd (login (VStr "alice") (VStr "pw") w) in
  secret (self w1) = None
  /\ fst (verify (VStr "123456") w1) = Ok tt
  /\ secret (self (snd (verify (VStr "123456") w1)))
     = Some (Fixture.bytes_of "token")
  /\ authenticated (self (snd (verify (VStr "123456") w1))) = true.
Proof.
  intros w w1.
  destruct (verify_sets_token_after_login (H := Fixture.script_transport)
              (VStr "alice") (VStr "pw")
              (VStr "123456") (VStr "aes(123456)") w
              (Fixture.token_reply "s1" "dG9rZW4=") []
              (Fixture.envelope_body (Fixture.token_data "s1" "dG9rZW4="))
              (Fixture.token_data "s1" "dG9rZW4=") (VStr "dG9rZW4=")
              (Fixture.bytes_of "token")
              eq_refl) as (H1 & H2 & _).
  split; [unfold w1; now rewrite H1|].
  exact (H2 eq_refl eq_refl eq_refl eq_refl eq_refl eq_refl eq_refl).
Defined.



(** ** More on validation *)

(** X1: [check_response] returns exactly for the replies with status
    200 and a null error code whose identity the client accepts: the
    stored identity is falsy, or equal to [data.sessionId]. *)
Theorem check_response_returns_iff (c : Client) (r : Response) :
  check_response c r = Ok tt
  <-> status_code r = 200
      /\ exists body dto : pyval,
           json r = Ok body
           /\ subscript body "errorDto" = Ok dto
           /\ subscript dto "code" = Ok VNone
           /\ (truthy (session_id c) = false
               \/ exists data sid : pyval,
                    subscript body "data" = Ok data
                    /\ subscript data "sessionId" = Ok sid
                    /\ py_eq (session_id c) sid = true).
Proof.
  split.
  - unfold check_response.
    destruct (status_code r =? 200) eqn:Hs; simpl; [|discriminate].
    apply Z.eqb_eq in Hs.
    destruct (json r) as [body | e] eqn:Hj; simpl; [|discriminate].
    destruct (subscript body "errorDto") as [dto | e] eqn:Hd; simpl;
      [|discriminate].
    destruct (subscript dto "code") as [code | e] eqn:Hc; simpl; [|discriminate].
    destruct code;
      try (destruct (subscript dto "message"); simpl; discriminate).
    intro Hr. split; [exact Hs|]. exists body, dto.
    split; [reflexivity|]. split; [exact Hd|]. split; [exact Hc|].
    destruct (truthy (session_id c)); [right | now left].
    destruct (subscript body "data") as [data | e] eqn:Hdata; simpl in Hr;
      [|discriminate].
    destruct (subscript data "sessionId") as [sid | e] eqn:Hsid; simpl in Hr;
      [|discriminate].
    exists data, sid. split; [reflexivity|]. split; [exact Hsid|].
    unfold py_ne in Hr. destruct (py_eq (session_id c) sid);
      [reflexivity | discriminate].
  - intros (Hs & body & dto & Hj & Hd & Hc & Hsid).
    exact (check_response_accepts c r body dto Hs Hj Hd Hc Hsid).
Qed.

Lemma check_response_returns_iff_witness :
  check_response (self (Fixture.established true false []))
    (Fixture.token_reply "s1" "c2VjcmV0") = Ok tt.
Proof.
  apply (proj2 (check_response_returns_iff _ _)).
  split; [reflexivity|].
  exists (Fixture.envelope_body (Fixture.token_data "s1" "c2VjcmV0")),
    (VDict [("code", VNone); ("message", VNone)]).
  repeat split. right.
  exists (Fixture.token_data "s1" "c2VjcmV0"), (VStr "s1"). repeat split.
Defined.

(** X2: a reply with status 200 and a non-null error code is refused
    with the server's message, whoever the client is: the identity
    test comes after, and [data] is not looked at. *)
Theorem error_code_checked_before_session (c : Client) (r : Response)
        (body dto code msg : pyval) :
  status_code r = 200 ->
  json r = Ok body ->
  subscript body "errorDto" = Ok dto ->
  subscript dto "code" = Ok code ->
  code <> VNone ->
  subscript dto "message" = Ok msg ->
  check_response c r = Raise (ServerError msg).
Proof.
  intros Hs Hj Hd Hc Hn Hm. unfold check_response.
  rewrite Hs, Hj. simpl. rewrite Hd. simpl. rewrite Hc. simpl.
  destruct code; try contradiction; now rewrite Hm.
Qed.

Lemma error_code_checked_before_session_witness :
  check_response (self (Fixture.established true false []))
    (Fixture.failure "E42" "Wrong password" (VDict [("sessionId", VStr "s2")]))
  = Raise (ServerError (VStr "Wrong password")).
Proof.
  apply (error_code_checked_before_session _ _
           (VDict [("data", VDict [("sessionId", VStr "s2")]);
                   ("errorDto", VDict [("code", VStr "E42");
                                       ("message", VStr "Wrong password")])])
           (VDict [("code", VStr "E42"); ("message", VStr "Wrong password")])
           (VStr "E42"));
    try reflexivity.
  discriminate.
Defined.

(** X3: a reply with status 200 must carry an [errorDto] object: when
    the key is missing the reply is refused with [KeyError], and when
    [errorDto] is null, or anything but an object, with [TypeError],
    for every client and whatever [data] holds. *)
Theorem envelope_needs_errorDto (c : Client) (r : Response)
        (d : list (string * pyval)) :
  status_code r = 200 ->
  json r = Ok (VDict d) ->
  (dict_get "errorDto" d = None ->
   check_response c r = Raise (KeyError "errorDto"))
  /\ (forall dto : pyval,
         dict_get "errorDto" d = Some dto ->
         (forall o, dto <> VDict o) ->
         check_response c r = Raise TypeError).
Proof.
  intros Hs Hj. unfold check_response. rewrite Hs, Hj. simpl. split.
  - intros ->. reflexivity.
  - intros dto -> Hn. simpl.
    destruct dto; try reflexivity. now destruct (Hn d0).
Qed.

Lemma envelope_needs_errorDto_witness :
  check_response (self (Fixture.start true false []))
    {| status_code := 200; reason := "OK";
       json := Ok (VDict [("data", Fixture.token_data "s1" "c2VjcmV0");
                          ("errorDto", VNone)]) |}
  = Raise TypeError.
Proof.
  refine (proj2 (envelope_needs_errorDto
                   (self (Fixture.start true false []))
                   {| status_code := 200; reason := "OK";
                      json := Ok (VDict [("data", Fixture.token_data "s1" "c2VjcmV0");
                                         ("errorDto", VNone)]) |}
                   _ eq_refl eq_refl) VNone eq_refl _).
  discriminate.
Defined.

(** X4: against a stored identity that is a non-empty string, a reply
    with status 200 and a null error code is accepted exactly when its
    [data.sessionId] is that very string; any other value, of any
    type, is refused as an invalid session. *)
Theorem string_session_id_must_match (c : Client) (r : Response)
        (s : string) (body dto data sid : pyval) :
  session_id c = VStr s ->
  s <> "" ->
  status_code r = 200 ->
  json r = Ok body ->
  subscript body "errorDto" = Ok dto ->
  subscript dto "code" = Ok VNone ->
  subscript body "data" = Ok data ->
  subscript data "sessionId" = Ok sid ->
  (sid = VStr s -> check_response c r = Ok tt)
  /\ (sid <> VStr s ->
      check_response c r = Raise (ServerError (VStr "Invalid SessionID. "))).
Proof.
  intros Hc Hne Hs Hj Hd Hcode Hdata Hsid.
  assert (Ht : truthy (session_id c) = true).
  { rewrite Hc. simpl. apply negb_true_iff, String.eqb_neq, Hne. }
  split.
  - intros ->.
    apply (check_response_accepts c r body dto Hs Hj Hd Hcode). right.
    exists data, (VStr s). repeat split; trivial.
    rewrite Hc. simpl. apply String.eqb_refl.
  - intro Hdiff.
    apply (check_response_mismatch c r body dto data sid Hs Hj Hd Hcode Ht
             Hdata Hsid).
    unfold py_ne. rewrite Hc. apply negb_true_iff.
    destruct sid; try reflexivity. simpl. apply String.eqb_neq.
    intros ->. now apply Hdiff.
Qed.

Lemma string_session_id_must_match_witness :
  let c := self (Fixture.established true false []) in
  check_response c (Fixture.envelope (VDict [("sessionId", VStr "s1")])) = Ok tt
  /\ check_response c (Fixture.envelope (VDict [("sessionId", VInt 1)]))
     = Raise (ServerError (VStr "Invalid SessionID. ")).
Proof.
  intro c. split.
  - refine (proj1 (string_session_id_must_match c
                     (Fixture.envelope (VDict [("sessionId", VStr "s1")]))
                     "s1" _ _ _ (VStr "s1")
                     eq_refl _ eq_refl eq_refl eq_refl eq_refl eq_refl eq_refl)
              eq_refl).
    discriminate.
  - refine (proj2 (string_session_id_must_match c
                     (Fixture.envelope (VDict [("sessionId", VInt 1)]))
                     "s1" _ _ _ (VInt 1)
                     eq_refl _ eq_refl eq_refl eq_refl eq_refl eq_refl eq_refl)
              _); discriminate.
Defined.

(** ** More on the handshake *)

Section HandshakeFacts.

Context {Net : Type} `{Transport Net} `{Crypto}.

Lemma make_request_world (endpoint : string) (data : pyval) (w : World Net) :
  snd (make_request endpoint data w)
  = {| self := self w;
       net := snd (requests_post (net w) (base_url (self w) ++ endpoint) data);
       sent := (base_url (self w) ++ endpoint, data) :: sent w |}.
Proof. now rewrite make_request_eq. Qed.

(** X5: whatever the outcome, [connect] sends exactly one request, the
    handshake request, and touches neither the token, nor the two
    flags, nor the URL, nor the RSA key pair: a client that connects
    again keeps the token it had. *)
Theorem connect_sends_one_request (w : World Net) :
  let w' := snd (connect w) in
  sent w' = (base_url (self w) ++ "rsakey", rsakey_request (self w)) :: sent w
  /\ secret (self w') = secret (self w)
  /\ use_encryption (self w') = use_encryption (self w)
  /\ use_verification (self w') = use_verification (self w)
  /\ base_url (self w') = base_url (self w)
  /\ rsa (self w') = rsa (self w).
Proof.
  pose proof (make_request_world "rsakey" (rsakey_request (self w)) w) as Hw.
  destruct (make_request "rsakey" (rsakey_request (self w)) w)
    as [[data | e] w1] eqn:Hm; simpl in Hw.
  - rewrite (connect_request_returns _ _ _ Hm).
    destruct (subscript data "sessionId") as [sid | e];
      [|subst w1; now repeat split].
    cbv zeta.
    destruct (rbind (crypto.decrypt (rsa (self w1)) data ["aesKey"; "ivector"]) _);
      subst w1; now repeat split.
  - rewrite (connect_request_raises _ _ _ Hm). subst w1. now repeat split.
Qed.

(** X6: [connect] returns only when the transport answered, the reply
    passed validation against the client as it was, and the key
    material decrypted; the client then holds the reply's identity and
    the cipher built from the decrypted [aesKey] and [ivector], and
    nothing else has changed. *)
Theorem connect_returns_inv (w w' : World Net) :
  connect w = (Ok tt, w') ->
  exists (response : Response) (n : Net) (body data sid data' key iv : pyval)
         (a : crypto.AESSucker),
    requests_post (net w) (base_url (self w) ++ "rsakey")
      (rsakey_request (self w)) = (Ok response, n)
    /\ check_response (self w) response = Ok tt
    /\ json response = Ok body
    /\ subscript body "data" = Ok data
    /\ subscript data "sessionId" = Ok sid
    /\ crypto.decrypt (rsa (self w)) data ["aesKey"; "ivector"] = Ok data'
    /\ subscript data' "aesKey" = Ok key
    /\ subscript data' "ivector" = Ok iv
    /\ AESSucker key iv = Ok a
    /\ w' = {| self := with_aes (Some a) (with_session_id sid (self w));
               net := n;
               sent := (base_url (self w) ++ "rsakey", rsakey_request (self w))
                       :: sent w |}.
Proof.
  intro Hc.
  destruct (make_request "rsakey" (rsakey_request (self w)) w)
    as [[data | e] w1] eqn:Hm.
  2: { rewrite (connect_request_raises _ _ _ Hm) in Hc. discriminate. }
  rewrite (connect_request_returns _ _ _ Hm) in Hc.
  rewrite make_request_eq in Hm.
  destruct (requests_post (net w) (base_url (self w) ++ "rsakey")
              (rsakey_request (self w))) as [[response | e] n] eqn:Hp;
    simpl in Hm; [|discriminate].
  destruct (check_response (self w) response) as [[] | e] eqn:Hv;
    simpl in Hm; [|discriminate].
  destruct (json response) as [body | e] eqn:Hj; simpl in Hm; [|discriminate].
  destruct (subscript body "data") as [d | e] eqn:Hd; [|discriminate].
  injection Hm as -> <-.
  destruct (subscript data "sessionId") as [sid | e] eqn:Hs; [|discriminate].
  cbv zeta in Hc. simpl self in Hc. simpl net in Hc. simpl sent in Hc.
  destruct (crypto.decrypt (rsa (self w)) data ["aesKey"; "ivector"])
    as [data' | e] eqn:Hdec; simpl in Hc; [|discriminate].
  destruct (subscript data' "aesKey") as [key | e] eqn:Hk; simpl in Hc;
    [|discriminate].
  destruct (subscript data' "ivector") as [iv | e] eqn:Hi; simpl in Hc;
    [|discriminate].
  destruct (AESSucker key iv) as [a | e] eqn:Ha; [|discriminate].
  injection Hc as <-.
  exists response, n, body, data, sid, data', key, iv, a.
  repeat split; trivial.
Qed.

End HandshakeFacts.

Lemma connect_returns_inv_witness :
  let w := Fixture.start true false [Ok (Fixture.handshake "s1")] in
  exists (a : crypto.AESSucker) (sid : pyval),
    self (snd (connect w))
    = with_aes (Some a) (with_session_id sid (self w)).
Proof.
  intro w.
  assert (Hc : connect w = (Ok tt, snd (connect w))) by reflexivity.
  destruct (connect_returns_inv w _ Hc)
    as (response & n & body & data & sid & data' & key & iv & a & Hw).
  exists a, sid.
  destruct Hw as (_ & _ & _ & _ & _ & _ & _ & _ & _ & Hw).
  now rewrite Hw.
Defined.

(** ** More on login and verification *)

Section CredentialFacts.

Context {Net : Type} `{Transport Net} `{Crypto}.

Lemma build_token_self (data : pyval) (w : World Net) :
  (forall e, fst (build_token data w) = Raise e ->
             snd (build_token data w) = w)
  /\ (fst (build_token data w) = Ok tt ->
      exists t, self (snd (build_token data w)) = with_secret (Some t) (self w)).
Proof.
  rewrite build_token_eq.
  destruct (rbind (subscript data "secret") base64.b64decode) as [t | e0];
    simpl; split; try discriminate; trivial.
  intros _. now exists t.
Qed.

(** X7: [login] changes nothing in the client but the token, and the
    token only when it returns: a [login] that raises, at any step,
    leaves the client object as it was; one that returns leaves it as
    it was when verification is required, and with a new token
    otherwise. *)
Theorem login_changes_only_token (l p : pyval) (w : World Net) :
  let r := login l p w in
  (forall e, fst r = Raise e -> self (snd r) = self w)
  /\ (fst r = Ok tt ->
      if use_verification (self w) then self (snd r) = self w
      else exists t, self (snd r) = with_secret (Some t) (self w)).
Proof.
  cbv zeta. rewrite login_eq.
  destruct (encrypt (self w) l) as [l' | e1]; [|split; [trivial|discriminate]].
  destruct (encrypt (self w) p) as [p' | e1]; [|split; [trivial|discriminate]].
  pose proof (make_request_self "login"
                (login_request (session_id (self w)) l' p') w) as Hs.
  destruct (make_request "login" _ w) as [[data | e1] w1]; simpl in Hs;
    [|split; [trivial|discriminate]].
  destruct (use_verification (self w)); simpl negb; cbv iota.
  - split; [discriminate | trivial].
  - destruct (build_token_self data w1) as [Hr Ho]. split.
    + intros e He. now rewrite (Hr e He).
    + intro Hok. destruct (Ho Hok) as [t Ht]. exists t. now rewrite Ht, Hs.
Qed.

(** X8: [verify] likewise: a [verify] that raises leaves the client
    object as it was, and one that returns has changed the token and
    nothing else. *)
Theorem verify_changes_only_token (code : pyval) (w : World Net) :
  let r := verify code w in
  (forall e, fst r = Raise e -> self (snd r) = self w)
  /\ (fst r = Ok tt ->
      exists t, self (snd r) = with_secret (Some t) (self w)).
Proof.
  cbv zeta. rewrite verify_eq.
  destruct (encrypt (self w) code) as [c | e1]; [|split; [trivial|discriminate]].
  pose proof (make_request_self "verify"
                (verify_request c (session_id (self w))) w) as Hs.
  destruct (make_request "verify" _ w) as [[data | e1] w1]; simpl in Hs;
    [|split; [trivial|discriminate]].
  destruct (build_token_self data w1) as [Hr Ho]. split.
  - intros e He. now rewrite (Hr e He).
  - intro Hok. destruct (Ho Hok) as [t Ht]. exists t. now rewrite Ht, Hs.
Qed.

(** X9: on a session whose identity is truthy, a [login] answered with
    status 200, a null error code and another [sessionId] raises the
    invalid-session [ServerError] after the request has gone out, and
    the client, its token included, is as it was. *)
Theorem login_session_mismatch (l p l' p' : pyval) (w : World Net)
        (response : Response) (n : Net) (body dto data sid : pyval) :
  encrypt (self w) l = Ok l' ->
  encrypt (self w) p = Ok p' ->
  requests_post (net w) (base_url (self w) ++ "login")
    (login_request (session_id (self w)) l' p') = (Ok response, n) ->
  status_code response = 200 ->
  json response = Ok body ->
  subscript body "errorDto" = Ok dto ->
  subscript dto "code" = Ok VNone ->
  subscript body "data" = Ok data ->
  subscript data "sessionId" = Ok sid ->
  truthy (session_id (self w)) = true ->
  py_ne (session_id (self w)) sid = true ->
  login l p w
  = (Raise (ServerError (VStr "Invalid SessionID. ")),
     {| self := self w; net := n;
        sent := (base_url (self w) ++ "login",
                 login_request (session_id (self w)) l' p') :: sent w |}).
Proof.
  intros Hl Hpw Hp Hs Hj Hd Hc Hdata Hsid Ht Hne.
  rewrite login_eq, Hl, Hpw.
  rewrite (make_request_refused _ _ _ _ _ _ Hp
             (check_response_mismatch _ _ _ _ _ _ Hs Hj Hd Hc Ht Hdata Hsid Hne)).
  reflexivity.
Qed.

(** X10: with verification not required, a [login] whose reply passes
    validation but carries no [secret] raises [KeyError] once the
    request has gone out, and sets no token; so does a reply whose
    [secret] is null, with [TypeError]. *)
Theorem login_reply_without_secret (l p l' p' : pyval) (w : World Net)
        (response : Response) (n : Net) (body : pyval)
        (d : list (string * pyval)) :
  use_verification (self w) = false ->
  encrypt (self w) l = Ok l' ->
  encrypt (self w) p = Ok p' ->
  requests_post (net w) (base_url (self w) ++ "login")
    (login_request (session_id (self w)) l' p') = (Ok response, n) ->
  check_response (self w) response = Ok tt ->
  json response = Ok body ->
  subscript body "data" = Ok (VDict d) ->
  let w1 := {| self := self w; net := n;
               sent := (base_url (self w) ++ "login",
                        login_request (session_id (self w)) l' p') :: sent w |} in
  (dict_get "secret" d = None ->
   login l p w = (Raise (KeyError "secret"), w1))
  /\ (dict_get "secret" d = Some VNone ->
      login l p w = (Raise TypeError, w1)).
Proof.
  intros Hv Hl Hpw Hp Hc Hj Hd w1.
  rewrite (login_request_returns _ _ _ _ _ _ _ _ _ Hl Hpw Hp Hc Hj Hd).
  cbv zeta. rewrite Hv. simpl negb. cbv iota. rewrite build_token_eq.
  split; intro Hk; simpl; now rewrite Hk.
Qed.

End CredentialFacts.

Lemma login_changes_only_token_witness :
  let w := Fixture.established true false
             [Ok (Fixture.failure "E42" "Wrong password" VNone)] in
  self (snd (login (VStr "alice") (VStr "pw") w)) = self w.
Proof.
  intro w.
  exact (proj1 (login_changes_only_token (VStr "alice") (VStr "pw") w)
               (ServerError (VStr "Wrong password")) eq_refl).
Defined.

Lemma verify_changes_only_token_witness :
  let w := Fixture.established true true
             [Ok (Fixture.token_reply "s1" "dG9rZW4")] in
  self (snd (verify (VStr "123456") w)) = self w.
Proof.
  intro w.
  exact (proj1 (verify_changes_only_token (VStr "123456") w)
               binascii_Error eq_refl).
Defined.

Lemma login_session_mismatch_witness :
  let w := Fixture.established true false
             [Ok (Fixture.token_reply "s2" "c2VjcmV0")] in
  fst (login (VStr "alice") (VStr "pw") w)
  = Raise (ServerError (VStr "Invalid SessionID. "))
  /\ secret (self (snd (login (VStr "alice") (VStr "pw") w))) = None.
Proof.
  intro w.
  pose proof (login_session_mismatch (H := Fixture.script_transport)
                (VStr "alice") (VStr "pw")
                (VStr "aes(alice)") (VStr "aes(pw)") w
                (Fixture.token_reply "s2" "c2VjcmV0") []
                (Fixture.envelope_body (Fixture.token_data "s2" "c2VjcmV0"))
                (VDict [("code", VNone); ("message", VNone)])
                (Fixture.token_data "s2" "c2VjcmV0") (VStr "s2")
                eq_refl eq_refl eq_refl eq_refl eq_refl eq_refl eq_refl
                eq_refl eq_refl eq_refl eq_refl) as Hl.
  rewrite Hl. split; reflexivity.
Defined.

Lemma login_reply_without_secret_witness :
  let w := Fixture.established true false [Ok (Fixture.pending_reply "s1")] in
  fst (login (VStr "alice") (VStr "pw") w) = Raise (KeyError "secret").
Proof.
  intro w.
  pose proof (login_reply_without_secret (H := Fixture.script_transport)
                (VStr "alice") (VStr "pw")
                (VStr "aes(alice)") (VStr "aes(pw)") w
                (Fixture.pending_reply "s1") []
                (Fixture.envelope_body (VDict [("sessionId", VStr "s1")]))
                [("sessionId", VStr "s1")]
                eq_refl eq_refl eq_refl eq_refl eq_refl eq_refl eq_refl) as Hl.
  cbv zeta in Hl. destruct Hl as [Hl _]. now rewrite (Hl eq_refl).
Defined.

(** ** The script *)

Section ScriptFacts.

Context {Net : Type} `{Transport Net} `{Crypto}.

(** What [login] adds to the log once both fields are encrypted. *)
Lemma login_sent (l p l' p' : pyval) (w : World Net) :
  encrypt (self w) l = Ok l' ->
  encrypt (self w) p = Ok p' ->
  sent (snd (login l p w))
  = (base_url (self w) ++ "login", login_request (session_id (self w)) l' p')
    :: sent w.
Proof.
  intros Hl Hp. rewrite login_eq, Hl, Hp, make_request_eq.
  match goal with
  | |- context [rbind ?r ?k] => destruct (rbind r k) as [data | e]
  end; [|reflexivity].
  destruct (negb (use_verification (self w))); [|reflexivity].
  now rewrite (proj1 (build_token_sent _ _)).
Qed.

Lemma connect_sent (w : World Net) :
  sent (snd (connect w))
  = (base_url (self w) ++ "rsakey", rsakey_request (self w)) :: sent w.
Proof.
  pose proof (make_request_world "rsakey" (rsakey_request (self w)) w) as Hw.
  destruct (make_request "rsakey" (rsakey_request (self w)) w)
    as [[data | e] w1] eqn:Hm; simpl in Hw.
  - rewrite (connect_request_returns _ _ _ Hm).
    destruct (subscript data "sessionId") as [sid | e]; [|now subst w1].
    cbv zeta.
    destruct (rbind (crypto.decrypt (rsa (self w1)) data ["aesKey"; "ivector"]) _);
      now subst w1.
  - rewrite (connect_request_raises _ _ _ Hm). now subst w1.
Qed.

Lemma connect_flags (w : World Net) :
  use_encryption (self (snd (connect w))) = use_encryption (self w)
  /\ use_verification (self (snd (connect w))) = use_verification (self w)
  /\ base_url (self (snd (connect w))) = base_url (self w).
Proof.
  pose proof (make_request_self "rsakey" (rsakey_request (self w)) w) as Hw.
  destruct (make_request "rsakey" (rsakey_request (self w)) w)
    as [[data | e] w1] eqn:Hm; simpl in Hw.
  - rewrite (connect_request_returns _ _ _ Hm).
    destruct (subscript data "sessionId") as [sid | e];
      [|simpl; now rewrite Hw].
    cbv zeta.
    destruct (rbind (crypto.decrypt (rsa (self w1)) data ["aesKey"; "ivector"]) _);
      simpl; now rewrite Hw.
  - rewrite (connect_request_raises _ _ _ Hm). simpl. now rewrite Hw.
Qed.

Lemma connect_installs_cipher (w w' : World Net) :
  connect w = (Ok tt, w') -> exists a, aes (self w') = Some a.
Proof.
  intro Hc.
  destruct (make_request "rsakey" (rsakey_request (self w)) w)
    as [[data | e] w1] eqn:Hm.
  2: { rewrite (connect_request_raises _ _ _ Hm) in Hc. discriminate. }
  rewrite (connect_request_returns _ _ _ Hm) in Hc.
  destruct (subscript data "sessionId") as [sid | e]; [|discriminate].
  cbv zeta in Hc.
  destruct (rbind (crypto.decrypt (rsa (self w1)) data ["aesKey"; "ivector"]) _)
    as [a | e]; [|discriminate].
  injection Hc as <-. now exists a.
Qed.

(** X11: the script shakes hands before it looks at its arguments.
    With a number of arguments other than two and a handshake that
    succeeds, it ends in the [TypeError] of the call of [login], the
    handshake request being the one request sent. *)
Theorem main_checks_arguments_after_handshake
        (BASE_URL : option string) (argv : list string) (n : Net) :
  let url := match BASE_URL with
             | Some u => u
             | None => "http://127.0.0.1:8080/"
             end in
  let w0 := {| self := Client_init url true false; net := n; sent := [] |} in
  length (tl argv) <> 2%nat ->
  fst (connect w0) = Ok tt ->
  fst (main BASE_URL argv n) = Raise TypeError
  /\ sent (snd (main BASE_URL argv n))
     = [(url ++ "rsakey", rsakey_request (self w0))].
Proof.
  intros url w0 Hlen Hc.
  pose proof (connect_sent w0) as Hs.
  unfold main, bind. fold url. fold w0.
  destruct (connect w0) as [[[] | e] w1]; simpl in Hc; [|discriminate].
  simpl in Hs.
  destruct (tl argv) as [| l [| p [| q t]]]; simpl in *;
    try (split; [reflexivity | exact Hs]).
  now contradiction Hlen.
Qed.

(** X12: the script never sends its arguments in clear.  Whatever the
    server answers, the requests it sends are the handshake alone, or
    the handshake followed by one login request whose [login] and
    [password] fields are what the cipher installed by the handshake
    made of the two arguments. *)
Theorem main_sends_only_ciphertext
        (BASE_URL : option string) (argv : list string) (n : Net) :
  let url := match BASE_URL with
             | Some u => u
             | None => "http://127.0.0.1:8080/"
             end in
  let w0 := {| self := Client_init url true false; net := n; sent := [] |} in
  let hs := (url ++ "rsakey", rsakey_request (self w0)) in
  sent (snd (main BASE_URL argv n)) = [hs]
  \/ exists (a : crypto.AESSucker) (l p : string) (l' p' : pyval),
       tl argv = [l; p]
       /\ aes (self (snd (connect w0))) = Some a
       /\ crypto.encrypt a (VStr l) = Ok l'
       /\ crypto.encrypt a (VStr p) = Ok p'
       /\ sent (snd (main BASE_URL argv n))
          = [(url ++ "login",
              login_request (session_id (self (snd (connect w0)))) l' p'); hs].
Proof.
  intros url w0 hs.
  pose proof (connect_sent w0) as Hs.
  destruct (connect_flags w0) as (He & _ & Hu).
  pose proof (connect_installs_cipher w0) as Hinv.
  unfold main, bind. fold url. fold w0.
  destruct (connect w0) as [[[] | e] w1]; simpl in Hs, He, Hu |- *;
    [|now left].
  destruct (Hinv w1 eq_refl) as [a Ha].
  destruct (tl argv) as [| l [| p [| q t]]]; simpl; try now left.
  assert (Henc : forall v, encrypt (self w1) v = crypto.encrypt a v).
  { intro v. unfold encrypt. now rewrite He, Ha. }
  destruct (crypto.encrypt a (VStr l)) as [l' | e] eqn:Hl.
  2: { left. rewrite login_eq, Henc, Hl. exact Hs. }
  destruct (crypto.encrypt a (VStr p)) as [p' | e] eqn:Hp.
  2: { left. rewrite login_eq, !Henc, Hl, Hp. exact Hs. }
  right. exists a, l, p, l', p'. repeat split; trivial.
  rewrite (login_sent (VStr l) (VStr p) l' p' w1).
  - now rewrite Hs, Hu.
  - now rewrite Henc.
  - now rewrite Henc.
Qed.

End ScriptFacts.

Lemma main_checks_arguments_after_handshake_witness :
  fst (main (Net := Fixture.Script) None ["client.py"; "alice"]
         [Ok (Fixture.handshake "s1")])
  = Raise TypeError
  /\ length (sent (snd (main (Net := Fixture.Script) None
                          ["client.py"; "alice"]
                          [Ok (Fixture.handshake "s1")]))) = 1%nat.
Proof.
  destruct (main_checks_arguments_after_handshake (H := Fixture.script_transport)
              None ["client.py"; "alice"] [Ok (Fixture.handshake "s1")])
    as [Hr Hs].
  - simpl. lia.
  - reflexivity.
  - split; [exact Hr | now rewrite Hs].
Defined.

(** ** The window *)

Section WindowFacts.

Context {Net : Type} `{Transport Net} `{Crypto} `{Builtins}
        `{DocumentClient Net}.

Lemma eqb_empty_false (s : string) : s <> "" -> String.eqb s "" = false.
Proof. intro Hs. now apply String.eqb_neq. Qed.

(** [login] never changes the verification flag. *)
Lemma login_use_verification (l p : pyval) (w : World Net) :
  use_verification (self (snd (login l p w))) = use_verification (self w).
Proof.
  rewrite login_eq.
  destruct (encrypt (self w) l) as [l' | e]; [|reflexivity].
  destruct (encrypt (self w) p) as [p' | e]; [|reflexivity].
  pose proof (make_request_self "login"
                (login_request (session_id (self w)) l' p') w) as Hs.
  destruct (make_request "login" _ w) as [[data | e] w1]; simpl in Hs;
    [|simpl; now rewrite Hs].
  destruct (negb (use_verification (self w))); [|simpl; now rewrite Hs].
  rewrite build_token_eq.
  destruct (rbind (subscript data "secret") base64.b64decode); simpl;
    now rewrite Hs.
Qed.

(** What the body of [on_login] does once the client's [login] has
    raised. *)
Lemma on_login_after_raise (l p : string) (s : ui.Window Net)
      (e : exn) (w' : World Net) :
  l <> "" ->
  p <> "" ->
  login (VStr l) (VStr p) (ui.world s) = (Raise e, w') ->
  ui.on_login l p s
  = if isinstance_ServerError e || isinstance_ValueError e
    then (Ok tt, {| ui.app := ui.with_error_message (str_exn e) (ui.app s);
                    ui.world := w' |})
    else (Raise e, {| ui.app := ui.app s; ui.world := w' |}).
Proof.
  intros Hl Hp Hr. unfold ui.on_login.
  rewrite (eqb_empty_false _ Hl), (eqb_empty_false _ Hp).
  change (false || false) with false. cbv beta iota.
  unfold ui.try_except, ui.bind, ui.call. rewrite Hr.
  now destruct (isinstance_ServerError e || isinstance_ValueError e).
Qed.

(** X13: [on_login] with an empty login or an empty password shows
    its message and does nothing else: the client's [login] is not
    called, nothing is sent, and the view stays where it is. *)
Theorem on_login_empty_field (l p : string) (s : ui.Window Net) :
  l = "" \/ p = "" ->
  ui.on_login l p s
  = (Ok tt,
     {| ui.app := ui.with_error_message
                    "Login and/or password cannot be empty." (ui.app s);
        ui.world := ui.world s |}).
Proof.
  intros [-> | ->]; unfold ui.on_login.
  - reflexivity.
  - now rewrite orb_true_r.
Qed.

(** X14: when the client's [login] raises a [ServerError] or a
    [ValueError] (a malformed base64 secret included), [on_login]
    returns normally: the label shows [str(e)], the view is unchanged,
    and the client is as the failed [login] left it. *)
Theorem on_login_reports_failure (l p : string) (s : ui.Window Net)
        (e : exn) (w' : World Net) :
  l <> "" ->
  p <> "" ->
  login (VStr l) (VStr p) (ui.world s) = (Raise e, w') ->
  isinstance_ServerError e || isinstance_ValueError e = true ->
  ui.on_login l p s
  = (Ok tt, {| ui.app := ui.with_error_message (str_exn e) (ui.app s);
               ui.world := w' |})
  /\ ui.currentIndex (ui.app (snd (ui.on_login l p s)))
     = ui.currentIndex (ui.app s).
Proof.
  intros Hl Hp Hr Hc.
  rewrite (on_login_after_raise l p s e w' Hl Hp Hr), Hc. now split.
Qed.

(** X15: with verification required, an [on_login] whose [login]
    returns moves to the VERIFY view with the error label cleared,
    and calls nothing else on the client. *)
Theorem on_login_asks_for_code (l p : string) (s : ui.Window Net)
        (w' : World Net) :
  l <> "" ->
  p <> "" ->
  use_verification (self (ui.world s)) = true ->
  login (VStr l) (VStr p) (ui.world s) = (Ok tt, w') ->
  ui.on_login l p s
  = (Ok tt,
     {| ui.app := ui.with_currentIndex ui.VERIFY
                    (ui.with_error_message "" (ui.app s));
        ui.world := w' |}).
Proof.
  intros Hl Hp Hv Hr. unfold ui.on_login.
  rewrite (eqb_empty_false _ Hl), (eqb_empty_false _ Hp).
  change (false || false) with false. cbv beta iota.
  pose proof (login_use_verification (VStr l) (VStr p) (ui.world s)) as Hu.
  rewrite Hr, Hv in Hu. simpl in Hu.
  unfold ui.try_except, ui.bind, ui.call. rewrite Hr. simpl.
  now rewrite Hu.
Qed.

(** X16: on a client with no cipher and encryption enabled,
    [on_login] does not report anything: the [AttributeError] of the
    client's [login] is none of the classes it catches and leaves the
    slot, with the window and the world as they were. *)
Theorem on_login_without_cipher (l p : string) (s : ui.Window Net) :
  l <> "" ->
  p <> "" ->
  aes (self (ui.world s)) = None ->
  use_encryption (self (ui.world s)) = true ->
  ui.on_login l p s = (Raise AttributeError, s).
Proof.
  intros Hl Hp Ha He.
  assert (Hr : login (VStr l) (VStr p) (ui.world s)
               = (Raise AttributeError, ui.world s)).
  { rewrite login_eq. unfold encrypt. now rewrite He, Ha. }
  rewrite (on_login_after_raise l p s _ _ Hl Hp Hr). simpl.
  now destruct s.
Qed.

(** X17: [on_verify] catches [ServerError] alone.  Any other
    exception of the client's [verify], the [ValueError] of a
    malformed base64 secret included, leaves the slot, and the label
    is not touched. *)
Theorem on_verify_catches_ServerError_only (code : string)
        (s : ui.Window Net) (e : exn) (w' : World Net) :
  verify (VStr code) (ui.world s) = (Raise e, w') ->
  ui.on_verify code s
  = if isinstance_ServerError e
    then (Ok tt, {| ui.app := ui.with_error_message (str_exn e) (ui.app s);
                    ui.world := w' |})
    else (Raise e, {| ui.app := ui.app s; ui.world := w' |}).
Proof.
  intro Hr. unfold ui.on_verify, ui.try_except, ui.bind, ui.call.
  rewrite Hr. now destruct (isinstance_ServerError e).
Qed.

(** X18: [set_stack] assigns the two flags before it connects and
    catches nothing.  The handshake request carries the flags just
    chosen; when [connect] returns the window moves to the LOGIN view
    with the label cleared; when it raises, the exception leaves the
    slot, the window is untouched, and the client keeps the new
    flags. *)
Theorem set_stack_assigns_flags_first (enc ver : bool) (s : ui.Window Net) :
  let w1 := set_self (with_flags enc ver (self (ui.world s))) (ui.world s) in
  ui.set_stack enc ver s
  = match fst (connect w1) with
    | Ok _ =>
        (Ok tt, {| ui.app := ui.with_currentIndex ui.LOGIN
                               (ui.with_error_message "" (ui.app s));
                   ui.world := snd (connect w1) |})
    | Raise e =>
        (Raise e, {| ui.app := ui.app s; ui.world := snd (connect w1) |})
    end
  /\ use_encryption (self (snd (connect w1))) = enc
  /\ use_verification (self (snd (connect w1))) = ver
  /\ sent (snd (connect w1))
     = (base_url (self (ui.world s)) ++ "rsakey",
        VDict [("rsaKey", crypto.public (rsa (self (ui.world s))));
               ("encryption", VBool enc); ("postCode", VBool ver)])
       :: sent (ui.world s).
Proof.
  intro w1. split; [|split; [|split]].
  - assert (Hs : ui.set_stack enc ver s
                 = ui.bind (ui.call connect)
                     (fun _ => ui.change_view ui.LOGIN)
                     {| ui.app := ui.app s; ui.world := w1 |})
      by reflexivity.
    rewrite Hs. unfold ui.bind, ui.call. simpl ui.world. simpl ui.app.
    destruct (connect w1) as [[[] | e] w2]; reflexivity.
  - now rewrite (proj1 (connect_flags w1)).
  - now rewrite (proj1 (proj2 (connect_flags w1))).
  - now rewrite connect_sent.
Qed.

Lemma doc_names_as_strings (docs names : list pyval) (items : list string) :
  doc_names docs = Ok names ->
  as_strings names = Ok items ->
  Forall2 (fun doc item => subscript doc "name" = Ok (VStr item)) docs items.
Proof.
  revert names items. induction docs as [| doc docs IH]; intros names items.
  - simpl. intros [= <-]. simpl. intros [= <-]. constructor.
  - simpl. destruct (subscript doc "name") as [x | e] eqn:Hx; [|discriminate].
    simpl. destruct (doc_names docs) as [xs | e]; [|discriminate].
    simpl. intros [= <-]. simpl.
    destruct x; try discriminate.
    destruct (as_strings xs) as [ss | e] eqn:Hss; [|discriminate].
    simpl. intros [= <-]. constructor; [exact Hx|].
    now apply (IH xs ss).
Qed.

Lemma display_eq (documents : pyval) (s : ui.Window Net) :
  ui.display documents s
  = match rbind (py_iter documents)
            (fun docs => rbind (doc_names docs) as_strings) with
    | Ok items =>
        (Ok tt, {| ui.app := ui.with_list_view items (ui.app s);
                   ui.world := ui.world s |})
    | Raise e =>
        (Raise e, {| ui.app := ui.with_list_view [] (ui.app s);
                     ui.world := ui.world s |})
    end.
Proof.
  unfold ui.display, ui.bind, ui.lift, ui.update_app. simpl.
  destruct (py_iter documents) as [docs | e]; simpl; [|reflexivity].
  destruct (doc_names docs) as [names | e]; simpl; [|reflexivity].
  destruct (as_strings names); reflexivity.
Qed.

(** X19: [display] replaces the list.  When it returns, the list
    holds one item per document, in order, each the [name] of its
    document and a string; when it raises (a document without
    [name], a name that is no string, a value that cannot be
    iterated) the list has already been cleared and stays empty. *)
Theorem display_replaces_the_list (documents : pyval) (s : ui.Window Net) :
  match fst (ui.display documents s) with
  | Ok _ =>
      exists docs,
        py_iter documents = Ok docs
        /\ Forall2 (fun doc item => subscript doc "name" = Ok (VStr item))
             docs (ui.list_view (ui.app (snd (ui.display documents s))))
  | Raise _ => ui.list_view (ui.app (snd (ui.display documents s))) = []
  end.
Proof.
  rewrite display_eq.
  destruct (py_iter documents) as [docs | e] eqn:Hi; simpl; [|reflexivity].
  destruct (doc_names docs) as [names | e] eqn:Hn; simpl; [|reflexivity].
  destruct (as_strings names) as [items | e] eqn:Hs; simpl; [|reflexivity].
  exists docs. split; [reflexivity|].
  exact (doc_names_as_strings docs names items Hn Hs).
Qed.

(** X20: with verification not required, [on_login] moves to the
    DOCUMENTS view as soon as the client's [login] has returned, and
    only then asks for the files.  When [get_files] raises, the window
    is already on that view: a [ServerError] or [ValueError] is shown
    there, anything else leaves the slot. *)
Theorem on_login_lists_after_moving (l p : string) (s : ui.Window Net)
        (w' w'' : World Net) (e : exn) :
  l <> "" ->
  p <> "" ->
  use_verification (self (ui.world s)) = false ->
  login (VStr l) (VStr p) (ui.world s) = (Ok tt, w') ->
  get_files w' = (Raise e, w'') ->
  let moved := ui.with_currentIndex ui.DOCUMENTS
                 (ui.with_error_message "" (ui.app s)) in
  ui.on_login l p s
  = if isinstance_ServerError e || isinstance_ValueError e
    then (Ok tt, {| ui.app := ui.with_error_message (str_exn e) moved;
                    ui.world := w'' |})
    else (Raise e, {| ui.app := moved; ui.world := w'' |}).
Proof.
  intros Hl Hp Hv Hr Hg moved. unfold ui.on_login.
  rewrite (eqb_empty_false _ Hl), (eqb_empty_false _ Hp).
  change (false || false) with false. cbv beta iota.
  pose proof (login_use_verification (VStr l) (VStr p) (ui.world s)) as Hu.
  rewrite Hr, Hv in Hu. simpl in Hu.
  unfold ui.try_except, ui.bind, ui.call. rewrite Hr. simpl.
  rewrite Hu. unfold ui.show_documents, ui.bind, ui.call. simpl.
  rewrite Hg.
  now destruct (isinstance_ServerError e || isinstance_ValueError e).
Qed.

Lemma update_documents_eq (s : ui.Window Net) :
  ui.update_documents s
  = match get_files (ui.world s) with
    | (Raise e, w1) => (Raise e, {| ui.app := ui.app s; ui.world := w1 |})
    | (Ok files, w1) =>
        match ui.display files {| ui.app := ui.app s; ui.world := w1 |} with
        | (Raise e, s2) => (Raise e, s2)
        | (Ok _, s2) =>
            (Ok tt,
             {| ui.app := ui.with_single_shots
                            (S (ui.single_shots (ui.app s2))) (ui.app s2);
                ui.world := ui.world s2 |})
        end
    end.
Proof.
  unfold ui.update_documents, ui.bind, ui.call.
  destruct (get_files (ui.world s)) as [[files | e] w1]; [|reflexivity].
  destruct (ui.display files _) as [[[] | e] s2]; reflexivity.
Qed.

Lemma show_documents_eq (s : ui.Window Net) :
  ui.show_documents s
  = let moved := ui.with_currentIndex ui.DOCUMENTS
                   (ui.with_error_message "" (ui.app s)) in
    match get_files (ui.world s) with
    | (Raise e, w1) => (Raise e, {| ui.app := moved; ui.world := w1 |})
    | (Ok files, w1) =>
        match ui.display files {| ui.app := moved; ui.world := w1 |} with
        | (Raise e, s2) => (Raise e, s2)
        | (Ok _, s2) =>
            if negb (ui.updating (ui.app s2)) then
              ui.update_documents
                {| ui.app := ui.with_updating true (ui.app s2);
                   ui.world := ui.world s2 |}
            else (Ok tt, s2)
        end
    end.
Proof.
  unfold ui.show_documents, ui.bind, ui.call. simpl.
  destruct (get_files (ui.world s)) as [[files | e] w1]; [|reflexivity].
  destruct (ui.display files _) as [[[] | e] s2]; [|reflexivity].
  simpl. now destruct (ui.updating (ui.app s2)).
Qed.

(** X21: [show_documents] starts the polling at most once.  Whatever
    [get_files] and [display] do, it hands at most one single shot of
    [update_documents] to the timer, none at all when [updating] is
    already set, and it never clears [updating]. *)
Theorem show_documents_polls_once (s : ui.Window Net) :
  let a' := ui.app (snd (ui.show_documents s)) in
  (ui.single_shots a' <= S (ui.single_shots (ui.app s)))%nat
  /\ (ui.updating (ui.app s) = true ->
      ui.single_shots a' = ui.single_shots (ui.app s)
      /\ ui.updating a' = true).
Proof.
  cbv zeta. rewrite show_documents_eq. cbv zeta.
  destruct (get_files (ui.world s)) as [[files | e] w1]; simpl.
  2: { split; [lia|]. intro Hu. now split. }
  rewrite display_eq.
  destruct (rbind (py_iter files) _) as [items | e]; simpl.
  2: { split; [lia|]. intro Hu. now split. }
  destruct (ui.updating (ui.app s)) eqn:Hu; simpl.
  - split; [lia|]. intros _. now split.
  - split; [|discriminate].
    rewrite update_documents_eq. simpl.
    destruct (get_files w1) as [[files' | e] w2]; simpl; [|lia].
    rewrite display_eq.
    destruct (rbind (py_iter files') _) as [items' | e]; simpl; lia.
Qed.

End WindowFacts.

Lemma on_login_empty_field_witness :
  let s := Fixture.window (Fixture.established true false []) in
  ui.error_message (ui.app (snd (ui.on_login "alice" "" s)))
  = "Login and/or password cannot be empty."
  /\ sent (ui.world (snd (ui.on_login "alice" "" s))) = [].
Proof.
  intro s.
  rewrite (on_login_empty_field (H := Fixture.script_transport)
             "alice" "" s (or_intror eq_refl)).
  split; reflexivity.
Defined.

Lemma on_login_reports_failure_witness :
  let s := Fixture.window
             (Fixture.established true false
                [Ok (Fixture.failure "E42" "Wrong password" VNone)]) in
  fst (ui.on_login "alice" "pw" s) = Ok tt
  /\ ui.error_message (ui.app (snd (ui.on_login "alice" "pw" s)))
     = "Wrong password"
  /\ ui.currentIndex (ui.app (snd (ui.on_login "alice" "pw" s))) = ui.STACK.
Proof.
  intro s.
  assert (Hl : "alice" <> "") by discriminate.
  assert (Hp : "pw" <> "") by discriminate.
  assert (Hlogin : login (VStr "alice") (VStr "pw") (ui.world s)
                   = (Raise (ServerError (VStr "Wrong password")),
                      snd (login (VStr "alice") (VStr "pw") (ui.world s))))
    by reflexivity.
  destruct (on_login_reports_failure (H := Fixture.script_transport)
              "alice" "pw" s _ _ Hl Hp Hlogin eq_refl) as [Hr Hi].
  rewrite Hr. repeat split.
Defined.

Lemma on_login_asks_for_code_witness :
  let s := Fixture.window
             (Fixture.established true true [Ok (Fixture.pending_reply "s1")]) in
  fst (ui.on_login "alice" "pw" s) = Ok tt
  /\ ui.currentIndex (ui.app (snd (ui.on_login "alice" "pw" s))) = ui.VERIFY.
Proof.
  intro s.
  assert (Hl : "alice" <> "") by discriminate.
  assert (Hp : "pw" <> "") by discriminate.
  assert (Hlogin : login (VStr "alice") (VStr "pw") (ui.world s)
                   = (Ok tt, snd (login (VStr "alice") (VStr "pw") (ui.world s))))
    by reflexivity.
  rewrite (on_login_asks_for_code (H := Fixture.script_transport)
             "alice" "pw" s _ Hl Hp eq_refl Hlogin).
  split; reflexivity.
Defined.

Lemma on_login_without_cipher_witness :
  let s := Fixture.window (Fixture.start true false []) in
  ui.on_login "alice" "pw" s = (Raise AttributeError, s).
Proof.
  intro s.
  assert (Hl : "alice" <> "") by discriminate.
  assert (Hp : "pw" <> "") by discriminate.
  exact (on_login_without_cipher (H := Fixture.script_transport)
           "alice" "pw" s Hl Hp eq_refl eq_refl).
Defined.

Lemma on_verify_catches_ServerError_only_witness :
  let s := Fixture.window
             (Fixture.established true true
                [Ok (Fixture.token_reply "s1" "dG9rZW4")]) in
  fst (ui.on_verify "123456" s) = Raise binascii_Error
  /\ ui.error_message (ui.app (snd (ui.on_verify "123456" s))) = "".
Proof.
  intro s.
  assert (Hverify : verify (VStr "123456") (ui.world s)
                    = (Raise binascii_Error,
                       snd (verify (VStr "123456") (ui.world s))))
    by reflexivity.
  rewrite (on_verify_catches_ServerError_only (H := Fixture.script_transport)
             "123456" s _ _ Hverify).
  split; reflexivity.
Defined.

Lemma on_login_lists_after_moving_witness :
  let s := Fixture.window
             (Fixture.established true false
                [Ok (Fixture.token_reply "s1" "c2VjcmV0")]) in
  fst (ui.on_login "alice" "pw" s) = Raise AttributeError
  /\ ui.currentIndex (ui.app (snd (ui.on_login "alice" "pw" s))) = ui.DOCUMENTS
  /\ secret (self (ui.world (snd (ui.on_login "alice" "pw" s))))
     = Some (Fixture.bytes_of "secret").
Proof.
  intro s.
  assert (Hl : "alice" <> "") by discriminate.
  assert (Hp : "pw" <> "") by discriminate.
  assert (Hlogin : login (VStr "alice") (VStr "pw") (ui.world s)
                   = (Ok tt, snd (login (VStr "alice") (VStr "pw") (ui.world s))))
    by reflexivity.
  pose proof (on_login_lists_after_moving (H := Fixture.script_transport)
                "alice" "pw" s _ _ AttributeError Hl Hp eq_refl Hlogin
                eq_refl) as Hr.
  cbv zeta in Hr. rewrite Hr. repeat split.
Defined.

Lemma show_documents_polls_once_witness :
  let s := {| ui.app := ui.with_updating true ui.ClientApp_init;
              ui.world := Fixture.established true false [] |} in
  ui.single_shots (ui.app (snd (ui.show_documents s))) = 0%nat
  /\ ui.updating (ui.app (snd (ui.show_documents s))) = true.
Proof.
  intro s.
  exact (proj2 (show_documents_polls_once s) eq_refl).
Defined.

(** ** Files *)

Lemma split_dot_nonempty (s : string) : split_dot s <> [].
Proof.
  destruct s as [| c s]; simpl; [discriminate|].
  destruct (Ascii.eqb c "."); [discriminate|].
  destruct (split_dot s); discriminate.
Qed.

(** No part of a split name holds a dot. *)
Lemma split_dot_parts (s : string) :
  Forall (fun part => ~ In "."%char (list_ascii_of_string part)) (split_dot s).
Proof.
  induction s as [| c s IH]; simpl.
  - constructor; [tauto | constructor].
  - destruct (Ascii.eqb c ".") eqn:Hc.
    + constructor; [simpl; tauto | exact IH].
    + apply Ascii.eqb_neq in Hc.
      destruct (split_dot s) as [| h t].
      * constructor; [|constructor]. simpl. intros [Heq | []]. now apply Hc.
      * inversion IH as [| ? ? Hh Ht]; subst.
        constructor; [|exact Ht]. simpl. intros [Heq | Hin];
          [now apply Hc | now apply Hh].
Qed.

(** A split name is the name alone, or it ends with a part that
    follows a dot in the name. *)
Lemma split_dot_shape (s : string) :
  split_dot s = [s]
  \/ exists (init : list string) (ext stem : string),
       init <> [] /\ split_dot s = (init ++ [ext])%list
       /\ s = stem ++ "." ++ ext.
Proof.
  induction s as [| c s IH]; simpl.
  - now left.
  - destruct (Ascii.eqb c ".") eqn:Hc.
    + apply Ascii.eqb_eq in Hc. subst c. right.
      destruct IH as [IH | (init & ext & stem & Hne & Hs & Heq)].
      * exists [""], s, "". rewrite IH. repeat split. discriminate.
      * exists ("" :: init), ext, (String "." stem). rewrite Hs.
        repeat split; [discriminate | now subst s].
    + destruct IH as [IH | (init & ext & stem & Hne & Hs & Heq)].
      * rewrite IH. now left.
      * right. rewrite Hs.
        destruct init as [| h init]; [contradiction|].
        exists (String c h :: init), ext, (String c stem).
        repeat split; [discriminate | now subst s].
Qed.

(** X22: the kind of a file is read off the text after the last dot
    of its name.  That text holds no dot, and the name is either that
    text alone (a name without a dot is its own extension) or a stem,
    a dot and that text; a name that is [bytes] is a [TypeError] and
    any other value an [AttributeError]. *)
Theorem extension_is_text_after_last_dot (name : pyval) :
  match name with
  | VStr s =>
      exists ext,
        ui.extension name = Ok ext
        /\ ~ In "."%char (list_ascii_of_string ext)
        /\ (s = ext \/ exists stem, s = stem ++ "." ++ ext)
  | VBytes _ => ui.extension name = Raise TypeError
  | _ => ui.extension name = Raise AttributeError
  end.
Proof.
  destruct name; try reflexivity.
  exists (last (split_dot s) ""). split; [reflexivity|].
  pose proof (split_dot_parts s) as Hparts.
  destruct (split_dot_shape s) as [Hs | (init & ext & stem & Hne & Hs & Heq)];
    rewrite Hs in *.
  - simpl. split; [now inversion Hparts | now left].
  - rewrite last_last. split.
    + apply Forall_app in Hparts as [_ Hext]. now inversion Hext.
    + right. now exists stem.
Qed.

Section FileFacts.

Context `{Builtins} `{Settings}.

(** X23: [display] records the file it is given before anything
    else.  Whether it returns or raises, [_data] is that file
    afterwards, and the title is either untouched or the file's name;
    a file whose extension is of neither kind is recorded all the
    same, and the message that its format is not supported stands
    under the title of the file shown before. *)
Theorem display_records_the_file (data : pyval) (w : ui.FileWidget) :
  let w' := snd (ui.FileWidget_display data w) in
  ui._data w' = Some data
  /\ (ui.title w' = ui.title w
      \/ subscript data "name" = Ok (VStr (ui.title w')))
  /\ (forall (s : string) (text image : list string),
         subscript data "name" = Ok (VStr s) ->
         dict_get "text" SETTINGS_formats = Some text ->
         dict_get "image" SETTINGS_formats = Some image ->
         str_in (last (split_dot s) "") text = false ->
         str_in (last (split_dot s) "") image = false ->
         ui.FileWidget_display data w
         = (Ok tt, {| ui._data := Some data; ui.title := ui.title w;
                      ui.label := ui.Text "Format is not supported." |})).
Proof.
  cbv zeta. split; [|split].
  - unfold ui.FileWidget_display.
    destruct (rbind (subscript data "name") _) as [[name ext] | e];
      [|reflexivity].
    destruct (dict_get "text" SETTINGS_formats) as [text |]; [|reflexivity].
    destruct (str_in ext text).
    + destruct (rbind (subscript data "content") _); reflexivity.
    + destruct (dict_get "image" SETTINGS_formats) as [image |]; [|reflexivity].
      destruct (str_in ext image); [|reflexivity].
      destruct (rbind (subscript data "content") _); reflexivity.
  - unfold ui.FileWidget_display.
    destruct (subscript data "name") as [name | e] eqn:Hn; simpl;
      [|now left].
    destruct name; simpl; try now left.
    destruct (dict_get "text" SETTINGS_formats) as [text |]; [|now left].
    destruct (str_in _ text).
    + destruct (rbind (subscript data "content") _); now right.
    + destruct (dict_get "image" SETTINGS_formats) as [image |]; [|now left].
      destruct (str_in _ image); [|now left].
      destruct (rbind (subscript data "content") _); now right.
  - intros s text image Hn Ht Hi Hnt Hni. unfold ui.FileWidget_display.
    rewrite Hn. simpl. now rewrite Ht, Hnt, Hi, Hni.
Qed.

End FileFacts.

Lemma display_records_the_file_witness :
  let data := VDict [("name", VStr "archive.tar.gz");
                     ("content", VBytes [])] in
  let shown := {| ui._data := None; ui.title := "notes.txt";
                  ui.label := ui.Text "hello" |} in
  ui.FileWidget_display data shown
  = (Ok tt, {| ui._data := Some data; ui.title := "notes.txt";
               ui.label := ui.Text "Format is not supported." |}).
Proof.
  intros data shown.
  exact (proj2 (proj2 (display_records_the_file data shown))
               "archive.tar.gz" ["txt"; "md"] ["png"; "jpg"]
               eq_refl eq_refl eq_refl eq_refl eq_refl).
Defined.

Section DeleteFacts.

Context {Net : Type} `{Transport Net} `{Crypto} `{Builtins}
        `{DocumentClient Net}.

(** Whatever it does, [show_documents] leaves the label empty. *)
Lemma show_documents_error_message (s : ui.Window Net) :
  ui.error_message (ui.app (snd (ui.show_documents s))) = "".
Proof.
  rewrite show_documents_eq. cbv zeta.
  destruct (get_files (ui.world s)) as [[files | e] w1]; [|reflexivity].
  rewrite display_eq.
  destruct (rbind (py_iter files) _) as [items | e]; [|reflexivity].
  simpl. destruct (ui.updating (ui.app s)); simpl; [reflexivity|].
  rewrite update_documents_eq. simpl.
  destruct (get_files w1) as [[files' | e] w2]; [|reflexivity].
  rewrite display_eq.
  destruct (rbind (py_iter files') _); reflexivity.
Qed.

(** Whatever it does, [show_documents] ends on the DOCUMENTS view. *)
Lemma show_documents_currentIndex (s : ui.Window Net) :
  ui.currentIndex (ui.app (snd (ui.show_documents s))) = ui.DOCUMENTS.
Proof.
  rewrite show_documents_eq. cbv zeta.
  destruct (get_files (ui.world s)) as [[files | e] w1]; [|reflexivity].
  rewrite display_eq.
  destruct (rbind (py_iter files) _) as [items | e]; [|reflexivity].
  simpl. destruct (ui.updating (ui.app s)); simpl; [reflexivity|].
  rewrite update_documents_eq. simpl.
  destruct (get_files w1) as [[files' | e] w2]; [|reflexivity].
  rewrite display_eq.
  destruct (rbind (py_iter files') _); reflexivity.
Qed.

Lemma delete_file_eq (name : string) (s : ui.Window Net) :
  ui.delete_file name s
  = match Client_delete_file name (ui.world s) with
    | (Raise e, w') => (Raise e, {| ui.app := ui.app s; ui.world := w' |})
    | (Ok deleted, w') =>
        ui.show_documents
          {| ui.app := if truthy deleted
                       then ui.with_error_message
                              ("File '" ++ name ++ "' was deleted.") (ui.app s)
                       else ui.app s;
             ui.world := w' |}
    end.
Proof.
  unfold ui.delete_file. unfold ui.bind at 1 2. unfold ui.call at 1.
  destruct (Client_delete_file name (ui.world s)) as [[deleted | e] w'];
    [|reflexivity].
  now destruct (truthy deleted).
Qed.

(** X24: the message that a file was deleted is never left on the
    label.  Once the client's [delete_file] has returned, whatever it
    returned and whatever the listing that follows does, the slot
    [delete_file] ends with the label empty and the window on the
    DOCUMENTS view: [show_documents] changes the view, and that hides
    the message just set. *)
Theorem delete_file_message_is_erased (name : string) (s : ui.Window Net)
        (deleted : pyval) (w' : World Net) :
  Client_delete_file name (ui.world s) = (Ok deleted, w') ->
  ui.error_message (ui.app (snd (ui.delete_file name s))) = ""
  /\ ui.currentIndex (ui.app (snd (ui.delete_file name s))) = ui.DOCUMENTS.
Proof.
  intro Hd. rewrite delete_file_eq, Hd. split.
  - apply show_documents_error_message.
  - apply show_documents_currentIndex.
Qed.

End DeleteFacts.

Lemma delete_file_message_is_erased_witness :
  let s := Fixture.window (Fixture.established true false []) in
  let s' := snd (ui.delete_file (H2 := Fixture.one_file) "notes.txt" s) in
  ui.error_message (ui.app s') = ""
  /\ ui.list_view (ui.app s') = ["notes.txt"].
Proof.
  intros s s'.
  destruct (delete_file_message_is_erased (H2 := Fixture.one_file)
              "notes.txt" s (VBool true) (ui.world s) eq_refl) as [He _].
  split; [exact He | reflexivity].
Defined.
